(** * meta_schedule database: Workload, TuningRecord, query facade, scope stack

    A shallow embedding of [src/meta_schedule/database/database.cc].

    The C++ file is a thin layer over collaborators that live elsewhere in the
    code base (structural hashing, JSON save/load, base64 transport encoding,
    the schedule/trace engine, the logging macros).  They are gathered in the
    interface [Collaborators]; everything defined in [database.cc] itself is
    transcribed function by function on top of that interface. *)

From stdpp Require Import base option list strings gmap.
From Stdlib Require Import Ascii DecimalString ZArith NArith Lia.

Set Warnings "-register-all".
Local Open Scope string_scope.
Local Open Scope list_scope.

(** ** Outcomes of a C++ call *)

(** What [e.what()] is built from.  [CHECK]/[ICHECK] failures carry the text
    of the failed condition and the message streamed into the macro. *)
Inductive Error : Type :=
| CheckFailed (cond : string) (msg : string)
| DowncastFailed (from_type_key : string) (to_type_key : string)
| CollaboratorError (what_ : string).

(** A call either returns, raises a [std::runtime_error] that a caller may
    catch, reaches [LOG(FATAL)], or runs into undefined behaviour (a null
    pointer dereference, [pop_back] on an empty vector).  [Fatal msg] records
    that [LOG(FATAL)] was reached and with which message.  The logging
    library then leaves the function by raising an error of its own; that
    step is not modelled, and nothing here says whether a caller can catch
    it. *)
Inductive outcome (A : Type) : Type :=
| Ok (a : A)
| Throw (e : Error)
| Fatal (msg : string)
| Undefined.
Arguments Ok {A} a.
Arguments Throw {A} e.
Arguments Fatal {A} msg.
Arguments Undefined {A}.

Definition obind {A B} (x : outcome A) (k : A -> outcome B) : outcome B :=
  match x with
  | Ok a => k a
  | Throw e => Throw e
  | Fatal msg => Fatal msg
  | Undefined => Undefined
  end.

#[global] Instance outcome_ret : MRet outcome := fun _ a => Ok a.
#[global] Instance outcome_bind : MBind outcome := fun _ _ k x => obind x k.

(** [try { body } catch (const std::runtime_error& e) { handler }], for a
    body whose errors are raised as [Throw]. *)
Definition try_catch {A} (body : outcome A) (handler : Error -> outcome A) : outcome A :=
  match body with
  | Throw e => handler e
  | other => other
  end.

(** [CHECK(cond) << msg] and [ICHECK(cond) << msg]. *)
Definition CHECK (b : bool) (cond msg : string) : outcome unit :=
  if b then Ok tt else Throw (CheckFailed cond msg).

(** [for (x : xs) out.push_back(f(x))], stopping at the first failure. *)
Fixpoint map_outcome {A B} (f : A -> outcome B) (xs : list A) : outcome (list B) :=
  match xs with
  | [] => Ok []
  | x :: rest =>
      y ← f x; ys ← map_outcome f rest; Ok (y :: ys)
  end.

(** ** Objects *)

Definition THashCode := N.

Inductive ScheduleErrorRenderLevel := kDetail | kFast | kNone.

(** The opaque object types of the surrounding code base. *)
Class ObjectTypes := {
  IRModule : Type;
  FloatImm : Type;
  Target : Type;
  Trace : Type;
  Schedule : Type;
  ArgInfo : Type;
}.

Section Objects.
Context `{OT : ObjectTypes}.

(** [ObjectRef]: a possibly null reference to a runtime object. *)
Inductive ObjectRef : Type :=
| ObjNull
| ObjString (s : string)
| ObjArray (elems : list ObjectRef)
| ObjMap (entries : list (ObjectRef * ObjectRef))
| ObjIntImm (v : Z)
| ObjFloatImm (v : FloatImm)
| ObjIRModule (m : IRModule)
| ObjOther (type_key : string).

Definition defined (o : ObjectRef) : bool :=
  match o with ObjNull => false | _ => true end.

Definition GetTypeKey (o : ObjectRef) : string :=
  match o with
  | ObjNull => "(nullptr)"
  | ObjString _ => "runtime.String"
  | ObjArray _ => "Array"
  | ObjMap _ => "Map"
  | ObjIntImm _ => "IntImm"
  | ObjFloatImm _ => "FloatImm"
  | ObjIRModule _ => "IRModule"
  | ObjOther k => k
  end.

(** [o.as<ArrayNode>()]: the node pointer, or [nullptr]. *)
Definition as_ArrayNode (o : ObjectRef) : option (list ObjectRef) :=
  match o with ObjArray l => Some l | _ => None end.

(** [Downcast<String>], [Downcast<IRModule>], [Downcast<Map<String, ObjectRef>>].
    The map downcast only looks at the container type, and is only reached
    behind a [defined()] test. *)
Definition Downcast_String (o : ObjectRef) : outcome string :=
  match o with
  | ObjString s => Ok s
  | _ => Throw (DowncastFailed (GetTypeKey o) "runtime.String")
  end.

Definition Downcast_IRModule (o : ObjectRef) : outcome IRModule :=
  match o with
  | ObjIRModule m => Ok m
  | _ => Throw (DowncastFailed (GetTypeKey o) "IRModule")
  end.

Definition Downcast_Map (o : ObjectRef) : outcome (list (ObjectRef * ObjectRef)) :=
  match o with
  | ObjMap kvs => Ok kvs
  | _ => Throw (DowncastFailed (GetTypeKey o) "Map")
  end.

(** [json_array->at(i)] on an array whose size has been checked. *)
Definition at_ (l : list ObjectRef) (i : nat) : ObjectRef := nth i l ObjNull.

(** [p->...] on a pointer obtained from [as<...>()]: dereferencing a null
    pointer is undefined behaviour. *)
Definition deref {A} (p : option A) : outcome A :=
  match p with Some a => Ok a | None => Undefined end.

End Objects.

(** ** Collaborators *)

(** Functions used by [database.cc] and defined elsewhere in the code base
    ([../utils.h] and what it includes). *)
Class Collaborators `{OT : ObjectTypes} := {
  (* tvm::StructuralHash()(mod) *)
  StructuralHash : IRModule -> THashCode;
  (* SHash2Str *)
  SHash2Str : THashCode -> string;
  (* tvm::SaveJSON, tvm::LoadJSON *)
  SaveJSON : IRModule -> string;
  LoadJSON : string -> outcome ObjectRef;
  (* Base64Encode, Base64Decode *)
  Base64Encode : string -> string;
  Base64Decode : string -> outcome string;
  (* AsFloatArray *)
  AsFloatArray : ObjectRef -> outcome (list FloatImm);
  (* Target::Target(const Map<String, ObjectRef>&) *)
  Target_from_config : list (ObjectRef * ObjectRef) -> outcome Target;
  (* ArgInfo::FromJSON *)
  ArgInfo_FromJSON : ObjectRef -> outcome ArgInfo;
  (* tir::Schedule::Traced(mod, seed, debug_mask, error_render_level) *)
  Schedule_Traced : IRModule -> Z -> Z -> ScheduleErrorRenderLevel -> Schedule;
  (* tir::Trace::ApplyJSONToSchedule(json, sch): updates sch in place *)
  ApplyJSONToSchedule : ObjectRef -> Schedule -> outcome Schedule;
  (* trace->ApplyToSchedule(sch, remove_postproc): updates sch in place *)
  ApplyToSchedule : Trace -> Schedule -> bool -> outcome Schedule;
  (* sch->trace(), sch->mod() *)
  Schedule_trace : Schedule -> option Trace;
  Schedule_mod : Schedule -> IRModule;
  (* operator<< on an ObjectRef, and e.what() *)
  repr : ObjectRef -> string;
  what : Error -> string;
}.

Definition newline : string := String "010"%char EmptyString.

(** The message of the [LOG(FATAL)] in both [FromJSON] handlers. *)
Definition parse_failure `{Collaborators} (json_obj : ObjectRef) (e : Error) : string :=
  "ValueError: Unable to parse the JSON object: " +:+ repr json_obj
    +:+ newline +:+ "The error is: " +:+ what e.

(** ** Workload *)

Record WorkloadNode `{OT : ObjectTypes} := mkWorkloadNode {
  mod_ : IRModule;
  shash : THashCode;
}.

Section Workload.
Context `{C : Collaborators}.

Definition Workload := WorkloadNode.

(** [Workload::Workload(IRModule mod)] *)
Definition Workload_from_mod (m : IRModule) : Workload :=
  {| shash := StructuralHash m; mod_ := m |}.

(** [Workload::Workload(IRModule mod, THashCode shash)] *)
Definition Workload_from_mod_shash (m : IRModule) (h : THashCode) : Workload :=
  {| mod_ := m; shash := h |}.

(** [WorkloadNode::AsJSON] *)
Definition Workload_AsJSON (this : Workload) : ObjectRef :=
  let json_mod := SaveJSON (mod_ this) in
  let b64_mod := Base64Encode json_mod in
  ObjArray [ObjString (SHash2Str (shash this)); ObjString b64_mod].

Definition hash_changed (str_shash recalc_shash : string) : string :=
  "ValueError: Structural hash changed. Given: " +:+ str_shash
    +:+ "; Recalculated: " +:+ recalc_shash.

(** The body of the [try] block of [Workload::FromJSON]: the values of the
    locals [mod] and [shash] when the block completes. *)
Definition Workload_FromJSON_try (json_obj : ObjectRef) : outcome (IRModule * THashCode) :=
  let json_array := as_ArrayNode json_obj in
  _ ← CHECK (match json_array with
             | Some a => Nat.eqb (length a) 2
             | None => false
             end) "json_array && json_array->size() == 2" "";
  json_array ← deref json_array;
  str_shash ← Downcast_String (at_ json_array 0);
  b64_mod ← Downcast_String (at_ json_array 1);
  json_mod ← Base64Decode b64_mod;
  loaded ← LoadJSON json_mod;
  m ← Downcast_IRModule loaded;
  let shash := StructuralHash m in
  let recalc_shash := SHash2Str shash in
  _ ← CHECK (String.eqb recalc_shash str_shash) "recalc_shash == str_shash"
        (hash_changed str_shash recalc_shash);
  Ok (m, shash).

(** [Workload::FromJSON] *)
Definition Workload_FromJSON (json_obj : ObjectRef) : outcome Workload :=
  '(m, shash) ← try_catch (Workload_FromJSON_try json_obj)
                  (fun e => Fatal (parse_failure json_obj e));
  Ok (Workload_from_mod_shash m shash).

End Workload.

(** ** TuningRecord *)

Record TuningRecordNode `{OT : ObjectTypes} := mkTuningRecordNode {
  trace : Trace;
  workload : WorkloadNode;
  run_secs : option (list FloatImm);
  target : option Target;
  args_info : option (list ArgInfo);
}.

(** [Optional<T>::value()]: checks that the optional is not null. *)
Definition Optional_value {A} (o : option A) : outcome A :=
  match o with
  | Some a => Ok a
  | None => Throw (CheckFailed "data_ != nullptr" "")
  end.

Section TuningRecord.
Context `{C : Collaborators}.

Definition TuningRecord := TuningRecordNode.

(** [TuningRecord::TuningRecord(trace, workload, run_secs, target, args_info)] *)
Definition TuningRecord_new (trace : Trace) (workload : Workload)
    (run_secs : option (list FloatImm)) (target : option Target)
    (args_info : option (list ArgInfo)) : TuningRecord :=
  {| trace := trace; workload := workload; run_secs := run_secs;
     target := target; args_info := args_info |}.

(** The body of the [try] block of [TuningRecord::FromJSON]: the values of
    the locals [trace], [run_secs], [target] and [args_info] when the block
    completes.  The fields are read in the order 1, 2, 3, 0. *)
Definition TuningRecord_FromJSON_try (json_obj : ObjectRef) (workload : Workload)
  : outcome (Trace * option (list FloatImm) * option Target * option (list ArgInfo)) :=
  let json_array := as_ArrayNode json_obj in
  _ ← CHECK (match json_array with
             | Some a => Nat.eqb (length a) 4
             | None => false
             end) "json_array && json_array->size() == 4" "";
  json_array ← deref json_array;
  (* Load json[1] => run_secs *)
  run_secs ← (if defined (at_ json_array 1)
              then r ← AsFloatArray (at_ json_array 1); Ok (Some r)
              else Ok None);
  (* Load json[2] => target *)
  target ← (if defined (at_ json_array 2)
            then config ← Downcast_Map (at_ json_array 2);
                 t ← Target_from_config config; Ok (Some t)
            else Ok None);
  (* Load json[3] => args_info *)
  args_info ← (if defined (at_ json_array 3)
               then let json_args_info := as_ArrayNode (at_ json_array 3) in
                    (* info.reserve(json_args_info->size()) *)
                    json_args_info ← deref json_args_info;
                    info ← map_outcome ArgInfo_FromJSON json_args_info;
                    Ok (Some info)
               else Ok None);
  (* Load json[0] => trace *)
  trace ← (let json_trace := at_ json_array 0 in
           let sch := Schedule_Traced (mod_ workload) (-1) 0 kNone in
           sch ← ApplyJSONToSchedule json_trace sch;
           Optional_value (Schedule_trace sch));
  Ok (trace, run_secs, target, args_info).

(** [TuningRecord::FromJSON] *)
Definition TuningRecord_FromJSON (json_obj : ObjectRef) (workload : Workload)
  : outcome TuningRecord :=
  '(trace, run_secs, target, args_info) ←
     try_catch (TuningRecord_FromJSON_try json_obj workload)
       (fun e => Fatal (parse_failure json_obj e));
  Ok (TuningRecord_new trace workload run_secs target args_info).

End TuningRecord.

(** ** Database *)

(** The pure virtual methods of [DatabaseNode], over a backend store [St].
    They are not [const]: each may update the store. *)
Class DatabaseNode `{OT : ObjectTypes} (St : Type) := {
  HasWorkload : IRModule -> St -> outcome bool * St;
  CommitWorkload : IRModule -> St -> outcome WorkloadNode * St;
  CommitTuningRecord : TuningRecordNode -> St -> outcome unit * St;
  GetTopK : WorkloadNode -> Z -> St -> outcome (list TuningRecordNode) * St;
  GetAllTuningRecords : St -> outcome (list TuningRecordNode) * St;
  Size : St -> outcome Z * St;
}.

(** One call of a virtual method, with its arguments. *)
Inductive Call `{OT : ObjectTypes} : Type :=
| CallHasWorkload (m : IRModule)
| CallCommitWorkload (m : IRModule)
| CallCommitTuningRecord (r : TuningRecordNode)
| CallGetTopK (w : WorkloadNode) (top_k : Z)
| CallGetAllTuningRecords
| CallSize.

(** The backend store together with the virtual calls made so far. *)
Record world `{OT : ObjectTypes} (St : Type) := mkWorld {
  store : St;
  calls : list Call;
}.
Arguments mkWorld {OT St} store calls.
Arguments store {OT St} w.
Arguments calls {OT St} w.

(** Methods of a database: they run against [this], may fail, and leave the
    world as it was when they stopped. *)
Definition M `{OT : ObjectTypes} (St A : Type) : Type :=
  world St -> outcome A * world St.

Section DatabaseMonad.
Context `{OT : ObjectTypes} {St : Type}.

Definition ret_M {A} (a : A) : M St A := fun w => (Ok a, w).

Definition bind_M {A B} (c : M St A) (k : A -> M St B) : M St B :=
  fun w =>
    match c w with
    | (Ok a, w') => k a w'
    | (Throw e, w') => (Throw e, w')
    | (Fatal msg, w') => (Fatal msg, w')
    | (Undefined, w') => (Undefined, w')
    end.

(** A computation that does not touch the database. *)
Definition lift_M {A} (x : outcome A) : M St A := fun w => (x, w).

(** A virtual call: recorded, then dispatched to the backend. *)
Definition virtual_call {A} (c : Call) (f : St -> outcome A * St) : M St A :=
  fun w => let '(r, s') := f (store w) in (r, mkWorld s' (calls w ++ [c])).

End DatabaseMonad.

#[global] Instance M_ret `{OT : ObjectTypes} {St} : MRet (M St) := fun _ a => ret_M a.
#[global] Instance M_bind `{OT : ObjectTypes} {St} : MBind (M St) :=
  fun _ _ k c => bind_M c k.

Section Database.
Context `{C : Collaborators} {St : Type} {this : DatabaseNode St}.

Definition this_HasWorkload (m : IRModule) : M St bool :=
  virtual_call (CallHasWorkload m) (HasWorkload m).
Definition this_CommitWorkload (m : IRModule) : M St Workload :=
  virtual_call (CallCommitWorkload m) (CommitWorkload m).
Definition this_CommitTuningRecord (r : TuningRecord) : M St unit :=
  virtual_call (CallCommitTuningRecord r) (CommitTuningRecord r).
Definition this_GetTopK (w : Workload) (top_k : Z) : M St (list TuningRecord) :=
  virtual_call (CallGetTopK w top_k) (GetTopK w top_k).

(** [DatabaseNode::QueryTuningRecord] *)
Definition QueryTuningRecord (m : IRModule) (target : Target)
  : M St (option TuningRecord) :=
  has ← this_HasWorkload m;
  if negb has then mret None
  else
    w ← this_CommitWorkload m;
    records ← this_GetTopK w 1;
    match records with
    | [] => mret None
    | record0 :: _ =>
        _ ← lift_M (CHECK (Nat.eqb (length records) 1) "records.size() == 1" "");
        mret (Some record0)
    end.

(** [DatabaseNode::QuerySchedule] *)
Definition QuerySchedule (m : IRModule) (target : Target) : M St (option Schedule) :=
  opt_record ← QueryTuningRecord m target;
  match opt_record with
  | Some record =>
      let sch := Schedule_Traced (mod_ (workload record)) (-1) 0 kDetail in
      sch ← lift_M (ApplyToSchedule (trace record) sch false);
      mret (Some sch)
  | None => mret None
  end.

(** [DatabaseNode::QueryIRModule] *)
Definition QueryIRModule (m : IRModule) (target : Target) : M St (option IRModule) :=
  opt_sch ← QuerySchedule m target;
  match opt_sch with
  | Some sch => mret (Some (Schedule_mod sch))
  | None => mret None
  end.

End Database.

(** [Database::PyDatabase]: a database whose six methods forward to the six
    callbacks it was built from. *)
Definition PyDatabase `{OT : ObjectTypes} {St : Type}
    (f_has_workload : IRModule -> St -> outcome bool * St)
    (f_commit_workload : IRModule -> St -> outcome WorkloadNode * St)
    (f_commit_tuning_record : TuningRecordNode -> St -> outcome unit * St)
    (f_get_top_k : WorkloadNode -> Z -> St -> outcome (list TuningRecordNode) * St)
    (f_get_all_tuning_records : St -> outcome (list TuningRecordNode) * St)
    (f_size : St -> outcome Z * St) : DatabaseNode St :=
  {| HasWorkload := f_has_workload;
     CommitWorkload := f_commit_workload;
     CommitTuningRecord := f_commit_tuning_record;
     GetTopK := f_get_top_k;
     GetAllTuningRecords := f_get_all_tuning_records;
     Size := f_size |}.

(** ** Scoped context stack *)

Definition thread_id := nat.

Section Scope.
Context {Database : Type}.

(** The [static thread_local std::vector<Database> tls]: one vector per
    thread, empty until the thread first touches it. *)
Local Abbreviation tls_store := (gmap thread_id (list Database)).

(** [ThreadLocalDatabases()], called on thread [tid]. *)
Definition ThreadLocalDatabases (tid : thread_id) (σ : tls_store) : list Database :=
  σ !!! tid.

(** [Database::EnterWithScope]: pushes this database on the vector. *)
Definition EnterWithScope (this : Database) (tid : thread_id) (σ : tls_store)
  : outcome unit * tls_store :=
  (Ok tt, <[tid := ThreadLocalDatabases tid σ ++ [this]]> σ).

(** [Database::ExitWithScope]: [pop_back()], which has no defined behaviour
    on an empty vector. *)
Definition ExitWithScope (tid : thread_id) (σ : tls_store)
  : outcome unit * tls_store :=
  match ThreadLocalDatabases tid σ with
  | [] => (Undefined, σ)
  | tls => (Ok tt, <[tid := removelast tls]> σ)
  end.

(** [Database::Current] *)
Definition Current (tid : thread_id) (σ : tls_store) : option Database :=
  let tls := ThreadLocalDatabases tid σ in
  match tls with
  | [] => None
  | _ => last tls
  end.

(** Scope operations issued by the threads of a process, in the order in
    which they happen. *)
Inductive ScopeOp : Type :=
| Enter (db : Database)
| Exit.

Definition scope_step (op : thread_id * ScopeOp) (σ : tls_store)
  : outcome unit * tls_store :=
  match op with
  | (tid, Enter db) => EnterWithScope db tid σ
  | (tid, Exit) => ExitWithScope tid σ
  end.

Fixpoint run_scope (ops : list (thread_id * ScopeOp)) (σ : tls_store)
  : outcome tls_store :=
  match ops with
  | [] => Ok σ
  | op :: rest =>
      match scope_step op σ with
      | (Ok _, σ') => run_scope rest σ'
      | (Throw e, _) => Throw e
      | (Fatal msg, _) => Fatal msg
      | (Undefined, _) => Undefined
      end
  end.

(** The operations of one thread. *)
Definition thread_history (tid : thread_id) (ops : list (thread_id * ScopeOp))
  : list ScopeOp :=
  omap (fun op => if decide (op.1 = tid) then Some op.2 else None) ops.

(** The specification's reading of a history, independent of any stack: walk
    the history backwards; every exit cancels the nearest earlier entry that
    is not cancelled yet; the first entry left standing is the most recently
    entered database that has not been exited. *)
Fixpoint scan_open (newest_first : list ScopeOp) (exits_pending : nat)
  : option Database :=
  match newest_first with
  | [] => None
  | Exit :: older => scan_open older (S exits_pending)
  | Enter db :: older =>
      match exits_pending with
      | O => Some db
      | S n => scan_open older n
      end
  end.

Definition most_recent_open (history : list ScopeOp) : option Database :=
  scan_open (reverse history) 0.

(** The vectors are what the specification's backward walk sees: the k-th
    database from the top of a thread's vector is the entry the walk stops
    at with k exits pending. *)
Definition agrees (ops : list (thread_id * ScopeOp)) (σ : tls_store) : Prop :=
  forall tid k,
    scan_open (reverse (thread_history tid ops)) k
      = reverse (ThreadLocalDatabases tid σ) !! k.

(** A history in which every exit is paired with an earlier entry: walking
    forwards, the number of open scopes never goes below zero. *)
Fixpoint paired_from (open_scopes : nat) (history : list ScopeOp) : bool :=
  match history with
  | [] => true
  | Enter _ :: later => paired_from (S open_scopes) later
  | Exit :: later =>
      match open_scopes with
      | O => false
      | S n => paired_from n later
      end
  end.

Definition paired (history : list ScopeOp) : bool := paired_from 0 history.

End Scope.

(** ** A concrete set of collaborators

    Programs are texts, a trace is a list of step names, applying a step
    appends it to the program.  The store keeps workloads and records in
    lists.  These instances are what the closed examples below run on. *)
Module Sample.

Record schedule := mkSchedule {
  sch_mod : string;
  sch_trace : list string;
}.

#[global] Instance objects : ObjectTypes := {|
  IRModule := string;
  FloatImm := N;
  Target := string;
  Trace := list string;
  Schedule := schedule;
  ArgInfo := string;
|}.

(** A 64-bit polynomial hash of the program text. *)
Fixpoint hash_from (h : N) (s : string) : N :=
  match s with
  | EmptyString => h
  | String c rest => hash_from ((h * 31 + N_of_ascii c) mod 2 ^ 64)%N rest
  end.

Definition structural_hash (m : string) : N := hash_from 7 m.

(** [std::to_string] on an unsigned integer. *)
Definition to_string (n : N) : string :=
  DecimalString.NilZero.string_of_uint (N.to_uint n).

(** Base64 with the standard alphabet and [=] padding. *)
Definition alphabet : string :=
  "ABCDEFGHIJKLMNOPQRSTUVWXYZabcdefghijklmnopqrstuvwxyz0123456789+/".

Definition sextet_char (n : N) : ascii :=
  match String.get (N.to_nat n) alphabet with
  | Some c => c
  | None => "="%char
  end.

Fixpoint index_from (i : N) (c : ascii) (s : string) : option N :=
  match s with
  | EmptyString => None
  | String d rest => if Ascii.eqb c d then Some i else index_from (i + 1)%N c rest
  end.

Definition char_sextet (c : ascii) : option N := index_from 0 c alphabet.

Definition quad (n : N) (pad : nat) : string :=
  let c0 := sextet_char (n / 262144)%N in
  let c1 := sextet_char ((n / 4096) mod 64)%N in
  let c2 := sextet_char ((n / 64) mod 64)%N in
  let c3 := sextet_char (n mod 64)%N in
  match pad with
  | O => String c0 (String c1 (String c2 (String c3 EmptyString)))
  | S O => String c0 (String c1 (String c2 "="))
  | _ => String c0 (String c1 "==")
  end.

Fixpoint base64_encode (s : string) : string :=
  match s with
  | EmptyString => EmptyString
  | String a EmptyString => quad (N_of_ascii a * 65536)%N 2
  | String a (String b EmptyString) =>
      quad (N_of_ascii a * 65536 + N_of_ascii b * 256)%N 1
  | String a (String b (String c rest)) =>
      quad (N_of_ascii a * 65536 + N_of_ascii b * 256 + N_of_ascii c)%N 0
        +:+ base64_encode rest
  end.

Definition invalid_base64 : Error := CollaboratorError "invalid base64 input".

Definition sextets (c0 c1 c2 c3 : ascii) : outcome N :=
  match char_sextet c0, char_sextet c1, char_sextet c2, char_sextet c3 with
  | Some s0, Some s1, Some s2, Some s3 =>
      Ok (s0 * 262144 + s1 * 4096 + s2 * 64 + s3)%N
  | _, _, _, _ => Throw invalid_base64
  end.

Definition byte_of (n : N) : ascii := ascii_of_N (n mod 256)%N.

Fixpoint base64_decode (s : string) : outcome string :=
  match s with
  | EmptyString => Ok EmptyString
  | String c0 (String c1 (String c2 (String c3 rest))) =>
      if Ascii.eqb c3 "="%char then
        match rest with
        | EmptyString =>
            if Ascii.eqb c2 "="%char then
              n ← sextets c0 c1 "A" "A";
              Ok (String (byte_of (n / 65536)%N) EmptyString)
            else
              n ← sextets c0 c1 c2 "A";
              Ok (String (byte_of (n / 65536)%N)
                    (String (byte_of (n / 256)%N) EmptyString))
        | _ => Throw invalid_base64
        end
      else
        n ← sextets c0 c1 c2 c3;
        tail ← base64_decode rest;
        Ok (String (byte_of (n / 65536)%N)
              (String (byte_of (n / 256)%N) (String (byte_of n) tail)))
  | _ => Throw invalid_base64
  end.

(** Programs are saved as a one-field text [{ir=...}]. *)
Definition save_json (m : string) : string := "{ir=" +:+ m +:+ "}".

Definition load_json (s : string) : outcome ObjectRef :=
  let n := String.length s in
  if String.prefix "{ir=" s && Nat.leb 5 n
     && String.eqb (String.substring (n - 1) 1 s) "}"
  then Ok (ObjIRModule (String.substring 4 (n - 5) s))
  else Throw (CollaboratorError "malformed module text").

Definition as_float (o : ObjectRef) : outcome N :=
  match o with
  | ObjIntImm v => Ok (Z.to_N v)
  | ObjFloatImm v => Ok v
  | _ => Throw (CollaboratorError
                  ("TypeError: Expect an array of float or int, but gets: "
                     +:+ GetTypeKey o))
  end.

Definition as_float_array (o : ObjectRef) : outcome (list N) :=
  match as_ArrayNode o with
  | Some arr => map_outcome as_float arr
  | None => Throw (CheckFailed "arr"
                     ("TypeError: Expect an array, but gets: " +:+ GetTypeKey o))
  end.

Definition target_from_config (config : list (ObjectRef * ObjectRef)) : outcome string :=
  match config with
  | (ObjString "kind", ObjString k) :: _ => Ok k
  | _ => Throw (CollaboratorError "ValueError: target kind is not specified")
  end.

Definition arg_info_from_json (o : ObjectRef) : outcome string :=
  match o with
  | ObjString s => Ok s
  | _ => Throw (CollaboratorError "ValueError: unable to parse the ArgInfo")
  end.

Definition traced (m : string) (seed debug_mask : Z) (level : ScheduleErrorRenderLevel)
  : schedule :=
  {| sch_mod := m; sch_trace := [] |}.

Definition apply_step (sch : schedule) (step : string) : schedule :=
  {| sch_mod := sch_mod sch +:+ ";" +:+ step;
     sch_trace := sch_trace sch ++ [step] |}.

Definition apply_to_schedule (tr : list string) (sch : schedule) (remove_postproc : bool)
  : outcome schedule :=
  Ok (fold_left apply_step tr sch).

Definition apply_json_to_schedule (json : ObjectRef) (sch : schedule) : outcome schedule :=
  match as_ArrayNode json with
  | Some steps =>
      tr ← map_outcome Downcast_String steps;
      apply_to_schedule tr sch false
  | None => Throw (CollaboratorError "ValueError: the trace is not an array")
  end.

Fixpoint show (o : ObjectRef) : string :=
  match o with
  | ObjNull => "null"
  | ObjString s => "'" +:+ s +:+ "'"
  | ObjArray elems => "[" +:+ String.concat ", " (List.map show elems) +:+ "]"
  | ObjMap entries =>
      "{" +:+ String.concat ", "
                (List.map (fun kv => show (fst kv) +:+ ": " +:+ show (snd kv)) entries)
          +:+ "}"
  | ObjIntImm v => if Z.ltb v 0 then "-" +:+ to_string (Z.to_N (- v)) else to_string (Z.to_N v)
  | ObjFloatImm v => to_string v
  | ObjIRModule m => m
  | ObjOther k => k
  end.

Definition what_of (e : Error) : string :=
  match e with
  | CheckFailed cond msg => "Check failed: (" +:+ cond +:+ ") is false: " +:+ msg
  | DowncastFailed a b => "Downcast from " +:+ a +:+ " to " +:+ b +:+ " failed."
  | CollaboratorError w => w
  end.

#[global] Instance collaborators : Collaborators := {|
  StructuralHash := structural_hash;
  SHash2Str := to_string;
  SaveJSON := save_json;
  LoadJSON := load_json;
  Base64Encode := base64_encode;
  Base64Decode := base64_decode;
  AsFloatArray := as_float_array;
  Target_from_config := target_from_config;
  ArgInfo_FromJSON := arg_info_from_json;
  Schedule_Traced := traced;
  ApplyJSONToSchedule := apply_json_to_schedule;
  ApplyToSchedule := apply_to_schedule;
  Schedule_trace := fun sch => Some (sch_trace sch);
  Schedule_mod := sch_mod;
  repr := show;
  what := what_of;
|}.

(** An in-memory backend: workloads keyed by hash, records in commit order. *)
Record store_t := mkStore {
  workloads : list Workload;
  records : list TuningRecord;
}.

Definition same_hash (h : THashCode) (w : Workload) : bool := N.eqb (shash w) h.

Definition has_workload (m : string) (s : store_t) : outcome bool * store_t :=
  (Ok (existsb (same_hash (StructuralHash m)) (workloads s)), s).

Definition commit_workload (m : string) (s : store_t) : outcome Workload * store_t :=
  match List.find (same_hash (StructuralHash m)) (workloads s) with
  | Some w => (Ok w, s)
  | None =>
      let w := Workload_from_mod m in
      (Ok w, {| workloads := workloads s ++ [w]; records := records s |})
  end.

Definition commit_tuning_record (r : TuningRecord) (s : store_t) : outcome unit * store_t :=
  (Ok tt, {| workloads := workloads s; records := records s ++ [r] |}).

(** Records are ranked by their first measured run time; records without a
    measurement come last. *)
Definition faster (a b : TuningRecord) : bool :=
  match run_secs a, run_secs b with
  | Some (x :: _), Some (y :: _) => N.leb x y
  | Some (_ :: _), _ => true
  | _, Some (_ :: _) => false
  | _, _ => true
  end.

Fixpoint insert_ranked (r : TuningRecord) (rs : list TuningRecord) : list TuningRecord :=
  match rs with
  | [] => [r]
  | r' :: rest => if faster r r' then r :: rs else r' :: insert_ranked r rest
  end.

Definition ranked (rs : list TuningRecord) : list TuningRecord :=
  fold_right insert_ranked [] rs.

Definition records_of (w : Workload) (s : store_t) : list TuningRecord :=
  ranked (List.filter (fun r => same_hash (shash w) (workload r)) (records s)).

Definition get_top_k (w : Workload) (top_k : Z) (s : store_t)
  : outcome (list TuningRecord) * store_t :=
  (Ok (take (Z.to_nat top_k) (records_of w s)), s).

Definition get_all_tuning_records (s : store_t) : outcome (list TuningRecord) * store_t :=
  (Ok (records s), s).

Definition size (s : store_t) : outcome Z * store_t :=
  (Ok (Z.of_nat (length (records s))), s).

Definition memory_db : DatabaseNode store_t :=
  {| HasWorkload := has_workload;
     CommitWorkload := commit_workload;
     CommitTuningRecord := commit_tuning_record;
     GetTopK := get_top_k;
     GetAllTuningRecords := get_all_tuning_records;
     Size := size |}.

(** A callback-bridged database whose [f_get_top_k] callback ignores
    [top_k] and hands back every ranked record of the workload. *)
Definition unbounded_db : DatabaseNode store_t :=
  PyDatabase has_workload commit_workload commit_tuning_record
    (fun w _ s => (Ok (records_of w s), s))
    get_all_tuning_records size.

Definition prog_f : @IRModule objects := "def f(x)".

(** Two program texts with the same hash. *)
Definition prog_Aa : @IRModule objects := "Aa".
Definition prog_BB : @IRModule objects := "BB".

Definition record_slow : TuningRecord :=
  TuningRecord_new ["split"; "reorder"] (Workload_from_mod prog_Aa) (Some [1200%N])
    (Some "llvm") None.
Definition record_fast : TuningRecord :=
  TuningRecord_new ["vectorize"] (Workload_from_mod prog_Aa) (Some [800%N])
    (Some "llvm") None.

Definition one_record : store_t :=
  {| workloads := [Workload_from_mod prog_Aa]; records := [record_slow] |}.
Definition two_records : store_t :=
  {| workloads := [Workload_from_mod prog_Aa]; records := [record_slow; record_fast] |}.
Definition no_records : store_t :=
  {| workloads := [Workload_from_mod prog_Aa]; records := [] |}.
Definition empty_store : store_t := {| workloads := []; records := [] |}.

End Sample.

(** ** The rest of [TuningRecordNode]: export and measure candidates *)

(** Collaborators of [TuningRecordNode::AsJSON] and
    [TuningRecordNode::AsMeasureCandidate]. *)
Class Exporters `{OT : ObjectTypes} := {
  (* trace->AsJSON(remove_postproc) *)
  Trace_AsJSON : Trace -> bool -> ObjectRef;
  (* target->Export() *)
  Target_Export : Target -> list (ObjectRef * ObjectRef);
  (* arg_info->AsJSON() *)
  ArgInfo_AsJSON : ArgInfo -> ObjectRef;
  (* ArgInfo::FromEntryFunc(mod, remove_preproc) *)
  ArgInfo_FromEntryFunc : IRModule -> bool -> outcome (list ArgInfo);
}.

(** [MeasureCandidate(sch, args_info)] *)
Record MeasureCandidate `{OT : ObjectTypes} := mkMeasureCandidate {
  mc_sch : Schedule;
  mc_args_info : list ArgInfo;
}.

Section TuningRecordExport.
Context `{C : Collaborators} {E : Exporters}.

(** An [Optional<...>] stored in an [Array<ObjectRef>]: the object, or null. *)
Definition Optional_ref (o : option ObjectRef) : ObjectRef :=
  match o with Some x => x | None => ObjNull end.

(** [TuningRecordNode::AsMeasureCandidate] *)
Definition TuningRecord_AsMeasureCandidate (this : TuningRecord)
  : outcome MeasureCandidate :=
  let sch := Schedule_Traced (mod_ (workload this)) (-1) 0 kDetail in
  sch ← ApplyToSchedule (trace this) sch false;
  inferred ← ArgInfo_FromEntryFunc (Schedule_mod sch) true;
  Ok (mkMeasureCandidate _ sch inferred).

(** [TuningRecordNode::AsJSON] *)
Definition TuningRecord_AsJSON (this : TuningRecord) : ObjectRef :=
  let json_args_info :=
    match args_info this with
    | Some infos => Some (ObjArray (List.map ArgInfo_AsJSON infos))
    | None => None
    end in
  let json_target :=
    match target this with
    | Some t => Some (ObjMap (Target_Export t))
    | None => None
    end in
  ObjArray [Trace_AsJSON (trace this) false;
            Optional_ref (match run_secs this with
                          | Some secs => Some (ObjArray (List.map ObjFloatImm secs))
                          | None => None
                          end);
            Optional_ref json_target;
            Optional_ref json_args_info].

End TuningRecordExport.

(** ** Counting scope operations *)

Section ScopeCounts.
Context {Database : Type}.

Fixpoint entries (history : list (ScopeOp (Database := Database))) : nat :=
  match history with
  | [] => 0
  | Enter _ :: later => S (entries later)
  | Exit :: later => entries later
  end.

Fixpoint exits (history : list (ScopeOp (Database := Database))) : nat :=
  match history with
  | [] => 0
  | Enter _ :: later => exits later
  | Exit :: later => S (exits later)
  end.

(** The vector of one thread after that thread's own operations. *)
Fixpoint stack_after (history : list (ScopeOp (Database := Database)))
    (tls : list Database) : list Database :=
  match history with
  | [] => tls
  | Enter db :: later => stack_after later (tls ++ [db])
  | Exit :: later => stack_after later (removelast tls)
  end.

End ScopeCounts.

(** Exporters for the concrete collaborators of [Sample]. *)
Module SampleExport.

Definition trace_as_json (tr : list string) (remove_postproc : bool) : ObjectRef :=
  ObjArray (List.map ObjString tr).

Definition target_export (t : string) : list (ObjectRef * ObjectRef) :=
  [(ObjString "kind", ObjString t)].

Definition arg_info_as_json (a : string) : ObjectRef := ObjString a.

(** Every entry function takes one [float32] tensor. *)
Definition from_entry_func (m : string) (remove_preproc : bool) : outcome (list string) :=
  Ok ["float32"].

#[global] Instance exporters : Exporters (OT := Sample.objects) := {|
  Trace_AsJSON := trace_as_json;
  Target_Export := target_export;
  ArgInfo_AsJSON := arg_info_as_json;
  ArgInfo_FromEntryFunc := from_entry_func;
|}.

Definition record_full : TuningRecord (OT := Sample.objects) :=
  TuningRecord_new ["split"; "reorder"] (Workload_from_mod Sample.prog_Aa)
    (Some [1200%N; 1100%N]) (Some "llvm") (Some ["float32"; "int8"]).

(** A trace engine that rejects the step [tensorize]; everything else is
    as in [Sample]. *)
Definition unknown_step : Error := CollaboratorError "ScheduleError: unknown step".

Definition strict_apply (tr : list string) (sch : Sample.schedule) (remove_postproc : bool)
  : outcome Sample.schedule :=
  if existsb (String.eqb "tensorize") tr then Throw unknown_step
  else Sample.apply_to_schedule tr sch remove_postproc.

Definition strict_apply_json (json : ObjectRef) (sch : Sample.schedule)
  : outcome Sample.schedule :=
  match as_ArrayNode json with
  | Some steps =>
      tr ← map_outcome Downcast_String steps;
      strict_apply tr sch false
  | None => Throw (CollaboratorError "ValueError: the trace is not an array")
  end.

Definition strict_collaborators : Collaborators (OT := Sample.objects) := {|
  StructuralHash := Sample.structural_hash;
  SHash2Str := Sample.to_string;
  SaveJSON := Sample.save_json;
  LoadJSON := Sample.load_json;
  Base64Encode := Sample.base64_encode;
  Base64Decode := Sample.base64_decode;
  AsFloatArray := Sample.as_float_array;
  Target_from_config := Sample.target_from_config;
  ArgInfo_FromJSON := Sample.arg_info_from_json;
  Schedule_Traced := Sample.traced;
  ApplyJSONToSchedule := strict_apply_json;
  ApplyToSchedule := strict_apply;
  Schedule_trace := fun sch => Some (Sample.sch_trace sch);
  Schedule_mod := Sample.sch_mod;
  repr := Sample.show;
  what := Sample.what_of;
|}.

Definition record_stale : TuningRecord (OT := Sample.objects) :=
  TuningRecord_new ["tensorize"] (Workload_from_mod Sample.prog_Aa) (Some [500%N])
    None None.

Definition stale_record : Sample.store_t :=
  {| Sample.workloads := [Workload_from_mod Sample.prog_Aa];
     Sample.records := [record_stale] |}.

Definition connection_lost : Error := CollaboratorError "connection lost".

(** A callback-bridged database over the in-memory store whose connection
    drops at the given virtual call of a query (0: [HasWorkload],
    1: [CommitWorkload], 2: [GetTopK]). *)
Definition dropping_db (drop_at : nat) : DatabaseNode Sample.store_t :=
  PyDatabase
    (fun m s => if Nat.eqb drop_at 0 then (Throw connection_lost, s)
                else Sample.has_workload m s)
    (fun m s => if Nat.eqb drop_at 1 then (Throw connection_lost, s)
                else Sample.commit_workload m s)
    Sample.commit_tuning_record
    (fun w k s => if Nat.eqb drop_at 2 then (Throw connection_lost, s)
                  else Sample.get_top_k w k s)
    Sample.get_all_tuning_records Sample.size.

End SampleExport.

(** * Properties *)

(** ** Reasoning about outcomes *)

Lemma bind_Ok {A B} (x : outcome A) (k : A -> outcome B) (b : B) :
  x ≫= k = Ok b -> exists a, x = Ok a /\ k a = Ok b.
Proof. destruct x; simpl; intros H; try discriminate. eauto. Qed.

Lemma try_catch_Fatal_Ok {A} (body : outcome A) (msg : Error -> string) (a : A) :
  try_catch body (fun e => Fatal (msg e)) = Ok a -> body = Ok a.
Proof. destruct body; simpl; intros H; congruence. Qed.

Lemma CHECK_Ok (b : bool) (cond msg : string) (u : unit) :
  CHECK b cond msg = Ok u -> b = true.
Proof. destruct b; simpl; [reflexivity | discriminate]. Qed.

Lemma deref_Ok {A} (p : option A) (a : A) : deref p = Ok a -> p = Some a.
Proof. destruct p; simpl; congruence. Qed.

Lemma length_2_inv {A} (l : list A) :
  Nat.eqb (length l) 2 = true -> exists x y, l = [x; y].
Proof. destruct l as [|x [|y [|z l]]]; simpl; try discriminate. eauto. Qed.

Lemma length_4_inv {A} (l : list A) :
  Nat.eqb (length l) 4 = true -> exists a b c d, l = [a; b; c; d].
Proof.
  destruct l as [|a [|b [|c [|d [|e l]]]]]; simpl; try discriminate. eauto 6.
Qed.

(** Peels one successful step off a chain of binds. *)
Tactic Notation "step_Ok" hyp(H) "as" ident(a) ident(Ha) :=
  apply bind_Ok in H; destruct H as (a & Ha & H).

Section WorkloadProperties.
Context `{C : Collaborators}.

(** A successful [Workload::FromJSON] went through every step of the [try]
    block: the value is a pair of strings, the second one decodes and loads
    to the returned program, and the recomputed hash string equals the
    stored one. *)
Lemma Workload_FromJSON_Ok_inv (json_obj : ObjectRef) (w : Workload) :
  Workload_FromJSON json_obj = Ok w ->
  exists str_shash b64_mod json_mod,
    json_obj = ObjArray [ObjString str_shash; ObjString b64_mod]
    /\ Base64Decode b64_mod = Ok json_mod
    /\ LoadJSON json_mod = Ok (ObjIRModule (mod_ w))
    /\ shash w = StructuralHash (mod_ w)
    /\ SHash2Str (StructuralHash (mod_ w)) = str_shash.
Proof.
  unfold Workload_FromJSON. intros H.
  step_Ok H as mh Htry. destruct mh as [m h]. injection H as <-.
  apply try_catch_Fatal_Ok in Htry. unfold Workload_FromJSON_try in Htry.
  step_Ok Htry as u Hsize. apply CHECK_Ok in Hsize.
  destruct json_obj; simpl in Hsize; try discriminate.
  apply length_2_inv in Hsize as (o0 & o1 & ->).
  step_Ok Htry as arr Harr. apply deref_Ok in Harr. injection Harr as <-.
  step_Ok Htry as str_shash H0.
  destruct o0; simpl in H0; try discriminate. injection H0 as <-.
  step_Ok Htry as b64_mod H1.
  destruct o1; simpl in H1; try discriminate. injection H1 as <-.
  step_Ok Htry as json_mod Hdecode.
  step_Ok Htry as loaded Hload.
  step_Ok Htry as m' Hcast.
  destruct loaded; simpl in Hcast; try discriminate. injection Hcast as <-.
  step_Ok Htry as u' Heq. apply CHECK_Ok in Heq. apply String.eqb_eq in Heq.
  injection Htry as <- <-. simpl.
  eexists _, _, json_mod. repeat split; eassumption.
Qed.

(** When the stored string differs from the recomputed one, the [CHECK_EQ]
    fails inside the [try], and the handler reports it through [LOG(FATAL)]. *)
Lemma Workload_FromJSON_hash_mismatch (str_shash b64_mod json_mod : string) (m : IRModule) :
  Base64Decode b64_mod = Ok json_mod ->
  LoadJSON json_mod = Ok (ObjIRModule m) ->
  SHash2Str (StructuralHash m) <> str_shash ->
  let json_obj := ObjArray [ObjString str_shash; ObjString b64_mod] in
  Workload_FromJSON json_obj =
    Fatal (parse_failure json_obj
             (CheckFailed "recalc_shash == str_shash"
                (hash_changed str_shash (SHash2Str (StructuralHash m))))).
Proof.
  intros Hb Hl Hne json_obj. subst json_obj.
  unfold Workload_FromJSON, Workload_FromJSON_try. simpl.
  rewrite Hb. simpl. rewrite Hl. simpl.
  apply String.eqb_neq in Hne. rewrite Hne. reflexivity.
Qed.

End WorkloadProperties.

Section WorkloadClaims.
Context `{C : Collaborators}.

(** C1.  [Workload::FromJSON] recomputes the structural hash of the program
    it decoded and compares its string form with the stored string.  A
    workload is returned only when the two strings are equal, and it carries
    the recomputed hash; when they differ the decode ends in the fatal parse
    failure that quotes the value and the "Structural hash changed" check,
    and no workload is returned. *)
Theorem Workload_FromJSON_verifies_hash :
  (forall (json_obj : ObjectRef) (w : Workload),
      Workload_FromJSON json_obj = Ok w ->
      exists str_shash b64_mod json_mod,
        json_obj = ObjArray [ObjString str_shash; ObjString b64_mod]
        /\ Base64Decode b64_mod = Ok json_mod
        /\ LoadJSON json_mod = Ok (ObjIRModule (mod_ w))
        /\ shash w = StructuralHash (mod_ w)
        /\ SHash2Str (StructuralHash (mod_ w)) = str_shash)
  /\ (forall (str_shash b64_mod json_mod : string) (m : IRModule),
      Base64Decode b64_mod = Ok json_mod ->
      LoadJSON json_mod = Ok (ObjIRModule m) ->
      SHash2Str (StructuralHash m) <> str_shash ->
      Workload_FromJSON (ObjArray [ObjString str_shash; ObjString b64_mod]) =
        Fatal (parse_failure (ObjArray [ObjString str_shash; ObjString b64_mod])
                 (CheckFailed "recalc_shash == str_shash"
                    (hash_changed str_shash (SHash2Str (StructuralHash m)))))).
Proof.
  split.
  - apply Workload_FromJSON_Ok_inv.
  - intros str_shash b64_mod json_mod m Hb Hl Hne.
    exact (Workload_FromJSON_hash_mismatch str_shash b64_mod json_mod m Hb Hl Hne).
Qed.

(** C2.  Encoding the workload built from a program [p] and decoding the
    result succeeds, gives a workload with the hash of [Workload(p)], and the
    decoded program saves to the same text as [p].  The transport and
    serialization collaborators are assumed to round-trip at [p]: base64
    decoding undoes the encoding of the saved text, and loading the saved
    text gives a program [p'] with the hash and the saved text of [p]. *)
Theorem Workload_JSON_round_trip (p p' : IRModule) :
  Base64Decode (Base64Encode (SaveJSON p)) = Ok (SaveJSON p) ->
  LoadJSON (SaveJSON p) = Ok (ObjIRModule p') ->
  StructuralHash p' = StructuralHash p ->
  SaveJSON p' = SaveJSON p ->
  exists w : Workload,
    Workload_FromJSON (Workload_AsJSON (Workload_from_mod p)) = Ok w
    /\ shash w = shash (Workload_from_mod p)
    /\ SaveJSON (mod_ w) = SaveJSON p.
Proof.
  intros Hb64 Hload Hhash Hsave.
  exists (Workload_from_mod_shash p' (StructuralHash p')).
  split; [|split]; simpl; try assumption.
  unfold Workload_FromJSON, Workload_FromJSON_try, Workload_AsJSON. simpl.
  rewrite Hb64. simpl. rewrite Hload. simpl.
  rewrite Hhash, String.eqb_refl. reflexivity.
Qed.

(** C5 (amended).  The hash of a workload is the structural hash of its
    program when the workload is built from the program alone and when it
    is returned by [Workload::FromJSON].  The two-argument constructor stores
    the hash it is given without looking at the program, so there the
    invariant holds exactly when the caller passes the program's hash. *)
Theorem Workload_hash_invariant :
  (forall m : IRModule,
      shash (Workload_from_mod m) = StructuralHash (mod_ (Workload_from_mod m)))
  /\ (forall (json_obj : ObjectRef) (w : Workload),
      Workload_FromJSON json_obj = Ok w -> shash w = StructuralHash (mod_ w))
  /\ (forall (m : IRModule) (h : THashCode),
      mod_ (Workload_from_mod_shash m h) = m
      /\ shash (Workload_from_mod_shash m h) = h
      /\ (shash (Workload_from_mod_shash m h)
            = StructuralHash (mod_ (Workload_from_mod_shash m h))
          <-> h = StructuralHash m)).
Proof.
  split; [|split].
  - reflexivity.
  - intros json_obj w H.
    destruct (Workload_FromJSON_Ok_inv json_obj w H) as (? & ? & ? & _ & _ & _ & Hh & _).
    exact Hh.
  - intros m h. simpl. tauto.
Qed.

End WorkloadClaims.

(** The decode of a tampered hash string, and of an honest encoding. *)
Lemma Workload_FromJSON_verifies_hash_witness :
  Workload_FromJSON
    (ObjArray [ObjString "5"; ObjString (Base64Encode (SaveJSON Sample.prog_f))]) =
    Fatal (parse_failure
             (ObjArray [ObjString "5"; ObjString (Base64Encode (SaveJSON Sample.prog_f))])
             (CheckFailed "recalc_shash == str_shash"
                (hash_changed "5" (SHash2Str (StructuralHash Sample.prog_f)))))
  /\ exists str_shash b64_mod json_mod,
      Workload_AsJSON (Workload_from_mod Sample.prog_f)
        = ObjArray [ObjString str_shash; ObjString b64_mod]
      /\ Base64Decode b64_mod = Ok json_mod
      /\ LoadJSON json_mod = Ok (ObjIRModule Sample.prog_f)
      /\ 8814089351925%N = StructuralHash Sample.prog_f
      /\ SHash2Str (StructuralHash Sample.prog_f) = str_shash.
Proof.
  split.
  - apply (proj2 (Workload_FromJSON_verifies_hash (C := Sample.collaborators))
             "5" _ "{ir=def f(x)}" Sample.prog_f).
    + vm_compute. reflexivity.
    + vm_compute. reflexivity.
    + vm_compute. discriminate.
  - apply (proj1 (Workload_FromJSON_verifies_hash (C := Sample.collaborators))
             (Workload_AsJSON (Workload_from_mod Sample.prog_f))
             (Workload_from_mod_shash Sample.prog_f 8814089351925%N)).
    vm_compute. reflexivity.
Defined.

Lemma Workload_JSON_round_trip_witness :
  exists w : Workload,
    Workload_FromJSON (Workload_AsJSON (Workload_from_mod Sample.prog_f)) = Ok w
    /\ shash w = shash (Workload_from_mod Sample.prog_f)
    /\ SaveJSON (mod_ w) = SaveJSON Sample.prog_f.
Proof.
  apply (Workload_JSON_round_trip (C := Sample.collaborators) Sample.prog_f Sample.prog_f).
  - vm_compute. reflexivity.
  - vm_compute. reflexivity.
  - reflexivity.
  - reflexivity.
Defined.

(** C5 as stated fails: a workload built from a program and a hash that is
    not the program's hash keeps that hash. *)
Lemma Workload_trusted_hash_counterexample :
  shash (Workload_from_mod_shash Sample.prog_Aa 0%N)
    <> StructuralHash (mod_ (Workload_from_mod_shash Sample.prog_Aa 0%N)).
Proof. vm_compute. discriminate. Qed.

Lemma Workload_hash_invariant_witness :
  shash (Workload_from_mod_shash Sample.prog_f 8814089351925%N)
    = StructuralHash (mod_ (Workload_from_mod_shash Sample.prog_f 8814089351925%N)).
Proof.
  apply (proj1 (proj2 (Workload_hash_invariant (C := Sample.collaborators)))
           (Workload_AsJSON (Workload_from_mod Sample.prog_f))
           (Workload_from_mod_shash Sample.prog_f 8814089351925%N)).
  vm_compute. reflexivity.
Defined.

(** ** TuningRecord decoding *)

Section TuningRecordProperties.
Context `{C : Collaborators}.

(** A value that is not an array of exactly four elements fails the first
    [CHECK]; the handler turns it into the fatal parse failure, which quotes
    the value and the failed check. *)
Lemma TuningRecord_FromJSON_wrong_arity (json_obj : ObjectRef) (workload : Workload) :
  (forall a, as_ArrayNode json_obj = Some a -> length a <> 4) ->
  TuningRecord_FromJSON json_obj workload =
    Fatal (parse_failure json_obj
             (CheckFailed "json_array && json_array->size() == 4" "")).
Proof.
  intros Hshape. unfold TuningRecord_FromJSON, TuningRecord_FromJSON_try.
  destruct (as_ArrayNode json_obj) as [a|] eqn:Ha; simpl.
  - specialize (Hshape a eq_refl). apply Nat.eqb_neq in Hshape.
    rewrite Hshape. reflexivity.
  - reflexivity.
Qed.

(** A run-time field of the wrong type is reported by the collaborator that
    parses it, and reaches the same fatal parse failure. *)
Lemma TuningRecord_FromJSON_bad_run_secs (o0 o1 o2 o3 : ObjectRef) (workload : Workload)
    (e : Error) :
  defined o1 = true ->
  AsFloatArray o1 = Throw e ->
  TuningRecord_FromJSON (ObjArray [o0; o1; o2; o3]) workload =
    Fatal (parse_failure (ObjArray [o0; o1; o2; o3]) e).
Proof.
  intros Hdef Hthrow. unfold TuningRecord_FromJSON, TuningRecord_FromJSON_try, at_.
  destruct o1; try discriminate Hdef; simpl; rewrite Hthrow; reflexivity.
Qed.

(** A record is returned only when the value is a four-element array and
    every field went through its parser: an absent field is a null element,
    never the trace of a failed parse. *)
Lemma TuningRecord_FromJSON_Ok_inv (json_obj : ObjectRef) (wl : Workload)
    (r : TuningRecord) :
  TuningRecord_FromJSON json_obj wl = Ok r ->
  exists o0 o1 o2 o3,
    json_obj = ObjArray [o0; o1; o2; o3]
    /\ workload r = wl
    /\ (if defined o1
        then exists l, AsFloatArray o1 = Ok l /\ run_secs r = Some l
        else run_secs r = None)
    /\ (if defined o2
        then exists config t,
            o2 = ObjMap config /\ Target_from_config config = Ok t /\ target r = Some t
        else target r = None)
    /\ (if defined o3
        then exists elems info,
            o3 = ObjArray elems
            /\ map_outcome ArgInfo_FromJSON elems = Ok info
            /\ args_info r = Some info
        else args_info r = None)
    /\ exists sch,
        ApplyJSONToSchedule o0 (Schedule_Traced (mod_ wl) (-1) 0 kNone) = Ok sch
        /\ Schedule_trace sch = Some (trace r).
Proof.
  unfold TuningRecord_FromJSON. intros H.
  step_Ok H as fields Htry. destruct fields as [[[tr rs] tg] ai]. injection H as <-.
  apply try_catch_Fatal_Ok in Htry. unfold TuningRecord_FromJSON_try in Htry.
  step_Ok Htry as u Hsize. apply CHECK_Ok in Hsize.
  destruct json_obj; simpl in Hsize; try discriminate.
  apply length_4_inv in Hsize as (o0 & o1 & o2 & o3 & ->).
  step_Ok Htry as arr Harr. apply deref_Ok in Harr. injection Harr as <-.
  unfold at_ in Htry. simpl nth in Htry.
  step_Ok Htry as rs' Hrs. step_Ok Htry as tg' Htg. step_Ok Htry as ai' Hai.
  step_Ok Htry as tr' Htr. injection Htry as <- <- <- <-.
  exists o0, o1, o2, o3. split; [reflexivity|]. split; [reflexivity|]. simpl.
  split; [|split; [|split]].
  - destruct (defined o1).
    + step_Ok Hrs as l Hl. injection Hrs as <-. eauto.
    + injection Hrs as <-. reflexivity.
  - destruct (defined o2).
    + step_Ok Htg as config Hconfig. step_Ok Htg as t Ht. injection Htg as <-.
      destruct o2; simpl in Hconfig; try discriminate. injection Hconfig as <-.
      eauto.
    + injection Htg as <-. reflexivity.
  - destruct (defined o3).
    + step_Ok Hai as elems Helems. step_Ok Hai as info Hinfo. injection Hai as <-.
      apply deref_Ok in Helems.
      destruct o3; simpl in Helems; try discriminate. injection Helems as <-.
      eauto.
    + injection Hai as <-. reflexivity.
  - step_Ok Htr as sch Hsch. exists sch. split; [exact Hsch|].
    destruct (Schedule_trace sch); simpl in Htr; [|discriminate].
    injection Htr as <-. reflexivity.
Qed.

(** C4.  The [args_info] branch of [TuningRecord::FromJSON] takes
    [json_array->at(3).as<ArrayNode>()] and calls [size()] on the result
    without testing it.  For a four-element value whose last element is
    defined and is not an array the pointer is null: the decode runs into
    undefined behaviour instead of the fatal parse failure. *)
Theorem TuningRecord_FromJSON_args_info_not_array
    (json_trace o3 : ObjectRef) (workload : Workload) :
  defined o3 = true ->
  as_ArrayNode o3 = None ->
  TuningRecord_FromJSON (ObjArray [json_trace; ObjNull; ObjNull; o3]) workload = Undefined.
Proof.
  intros Hdef Hnot. unfold TuningRecord_FromJSON, TuningRecord_FromJSON_try.
  destruct o3; try discriminate Hdef; try discriminate Hnot; reflexivity.
Qed.

End TuningRecordProperties.

Lemma TuningRecord_FromJSON_args_info_not_array_witness :
  TuningRecord_FromJSON
    (ObjArray [ObjArray [ObjString "split"]; ObjNull; ObjNull; ObjString "float32"])
    (Workload_from_mod Sample.prog_f) = Undefined.
Proof.
  apply (TuningRecord_FromJSON_args_info_not_array (C := Sample.collaborators)).
  - reflexivity.
  - reflexivity.
Defined.

(** ** Query facade *)

Ltac run_M :=
  unfold QueryIRModule, QuerySchedule, QueryTuningRecord, mbind, mret, M_bind, M_ret,
    bind_M, ret_M, lift_M, this_HasWorkload, this_CommitWorkload, this_GetTopK,
    virtual_call;
  simpl.

Section FacadeProperties.
Context `{C : Collaborators} {St : Type} {this : DatabaseNode St}.

(** What [QueryTuningRecord] does once the three virtual calls have returned. *)
Lemma QueryTuningRecord_hit (m : IRModule) (target : Target) (w : world St)
    (s1 s2 s3 : St) (wl : Workload) (records : list TuningRecord) :
  HasWorkload m (store w) = (Ok true, s1) ->
  CommitWorkload m s1 = (Ok wl, s2) ->
  GetTopK wl 1 s2 = (Ok records, s3) ->
  QueryTuningRecord m target w =
    (match records with
     | [] => Ok None
     | [record] => Ok (Some record)
     | _ :: _ :: _ => Throw (CheckFailed "records.size() == 1" "")
     end,
     mkWorld s3 (calls w ++ [CallHasWorkload m; CallCommitWorkload m; CallGetTopK wl 1])).
Proof.
  intros Hhas Hcommit Htop. run_M.
  rewrite Hhas. simpl. rewrite Hcommit. simpl. rewrite Htop. simpl.
  rewrite <- !app_assoc. simpl.
  destruct records as [|r0 [|r1 rest]]; reflexivity.
Qed.

Lemma QueryTuningRecord_miss (m : IRModule) (target : Target) (w : world St) (s1 : St) :
  HasWorkload m (store w) = (Ok false, s1) ->
  QueryTuningRecord m target w = (Ok None, mkWorld s1 (calls w ++ [CallHasWorkload m])).
Proof. intros Hhas. run_M. rewrite Hhas. reflexivity. Qed.

(** A record comes back only along the path on which all three virtual
    calls returned and [GetTopK] gave a one-element array. *)
Lemma QueryTuningRecord_Some_inv (m : IRModule) (target : Target) (w w' : world St)
    (record : TuningRecord) :
  QueryTuningRecord m target w = (Ok (Some record), w') ->
  exists s1 wl s2,
    HasWorkload m (store w) = (Ok true, s1)
    /\ CommitWorkload m s1 = (Ok wl, s2)
    /\ GetTopK wl 1 s2 = (Ok [record], store w')
    /\ calls w' = calls w ++ [CallHasWorkload m; CallCommitWorkload m; CallGetTopK wl 1].
Proof.
  run_M. intros H.
  destruct (HasWorkload m (store w)) as [[has| | |] s1] eqn:Hhas; simpl in H;
    try discriminate.
  destruct has; simpl in H; [|discriminate].
  destruct (CommitWorkload m s1) as [[wl| | |] s2] eqn:Hcommit; simpl in H;
    try discriminate.
  destruct (GetTopK wl 1 s2) as [[records| | |] s3] eqn:Htop; simpl in H;
    try discriminate.
  destruct records as [|r0 [|r1 rest]]; simpl in H; try discriminate.
  injection H as <- <-. simpl.
  exists s1, wl, s2. rewrite <- !app_assoc. auto.
Qed.

End FacadeProperties.

Section FacadeClaims.
Context `{C : Collaborators} {St : Type} {this : DatabaseNode St}.

(** C3 (amended).  When [HasWorkload(mod)] answers false, [QueryTuningRecord]
    returns none after that single call: no [CommitWorkload], no
    [CommitTuningRecord], no [GetTopK].  When it answers true the facade
    calls [CommitWorkload(mod)], then [GetTopK(w, 1)] on the workload [w] it
    got back, and nothing else; it returns none for an empty result and the
    record for a one-element result.  For a longer result it returns
    nothing: the size check fails. *)
Theorem QueryTuningRecord_algorithm (m : IRModule) (target : Target) (w : world St) :
  (forall s1,
      HasWorkload m (store w) = (Ok false, s1) ->
      QueryTuningRecord m target w =
        (Ok None, mkWorld s1 (calls w ++ [CallHasWorkload m])))
  /\ (forall s1 wl s2 records s3,
      HasWorkload m (store w) = (Ok true, s1) ->
      CommitWorkload m s1 = (Ok wl, s2) ->
      GetTopK wl 1 s2 = (Ok records, s3) ->
      QueryTuningRecord m target w =
        (match records with
         | [] => Ok None
         | [record] => Ok (Some record)
         | _ :: _ :: _ => Throw (CheckFailed "records.size() == 1" "")
         end,
         mkWorld s3
           (calls w ++ [CallHasWorkload m; CallCommitWorkload m; CallGetTopK wl 1]))).
Proof.
  split.
  - intros s1 Hhas. exact (QueryTuningRecord_miss m target w s1 Hhas).
  - intros s1 wl s2 records s3 Hhas Hcommit Htop.
    exact (QueryTuningRecord_hit m target w s1 s2 s3 wl records Hhas Hcommit Htop).
Qed.

(** C10.  A record returned by [QueryTuningRecord] is the only element of
    the array that [GetTopK(w, 1)] returned; a one-element array is returned
    as that element; an array of two or more elements fails the
    [records.size() == 1] check and no record is returned. *)
Theorem QueryTuningRecord_sole_record (m : IRModule) (target : Target) (w : world St) :
  (forall record w',
      QueryTuningRecord m target w = (Ok (Some record), w') ->
      exists s1 wl s2,
        HasWorkload m (store w) = (Ok true, s1)
        /\ CommitWorkload m s1 = (Ok wl, s2)
        /\ GetTopK wl 1 s2 = (Ok [record], store w'))
  /\ (forall s1 wl s2 s3 record,
      HasWorkload m (store w) = (Ok true, s1) ->
      CommitWorkload m s1 = (Ok wl, s2) ->
      GetTopK wl 1 s2 = (Ok [record], s3) ->
      fst (QueryTuningRecord m target w) = Ok (Some record))
  /\ (forall s1 wl s2 s3 record0 record1 rest,
      HasWorkload m (store w) = (Ok true, s1) ->
      CommitWorkload m s1 = (Ok wl, s2) ->
      GetTopK wl 1 s2 = (Ok (record0 :: record1 :: rest), s3) ->
      fst (QueryTuningRecord m target w) = Throw (CheckFailed "records.size() == 1" "")).
Proof.
  split; [|split].
  - intros record w' H.
    destruct (QueryTuningRecord_Some_inv m target w w' record H)
      as (s1 & wl & s2 & Hhas & Hcommit & Htop & _).
    exists s1, wl, s2. auto.
  - intros s1 wl s2 s3 record Hhas Hcommit Htop.
    rewrite (QueryTuningRecord_hit m target w s1 s2 s3 wl _ Hhas Hcommit Htop).
    reflexivity.
  - intros s1 wl s2 s3 record0 record1 rest Hhas Hcommit Htop.
    rewrite (QueryTuningRecord_hit m target w s1 s2 s3 wl _ Hhas Hcommit Htop).
    reflexivity.
Qed.

(** C7.  [QueryTuningRecord] does not look at its target: with two targets
    it returns the same result, leaves the same store and has made the same
    virtual calls with the same arguments. *)
Theorem QueryTuningRecord_ignores_target (m : IRModule) (t1 t2 : Target) (w : world St) :
  QueryTuningRecord m t1 w = QueryTuningRecord m t2 w.
Proof. reflexivity. Qed.

(** C6.  When [QueryTuningRecord] finds a record, [QuerySchedule] builds the
    schedule from the program of the record's workload, applies the record's
    trace to it and returns the schedule so obtained; when none is found it
    returns none.  [QueryIRModule] returns the program of the schedule that
    [QuerySchedule] returns, and none when that returns none. *)
Theorem QuerySchedule_replays_stored_workload (m : IRModule) (target : Target)
    (w : world St) :
  (forall record w' sch,
      QueryTuningRecord m target w = (Ok (Some record), w') ->
      ApplyToSchedule (trace record)
        (Schedule_Traced (mod_ (workload record)) (-1) 0 kDetail) false = Ok sch ->
      QuerySchedule m target w = (Ok (Some sch), w'))
  /\ (forall w',
      QueryTuningRecord m target w = (Ok None, w') ->
      QuerySchedule m target w = (Ok None, w'))
  /\ (forall sch w',
      QuerySchedule m target w = (Ok (Some sch), w') ->
      QueryIRModule m target w = (Ok (Some (Schedule_mod sch)), w'))
  /\ (forall w',
      QuerySchedule m target w = (Ok None, w') ->
      QueryIRModule m target w = (Ok None, w')).
Proof.
  repeat split.
  - intros record w' sch Hrecord Happly.
    unfold QuerySchedule, mbind, M_bind, bind_M. rewrite Hrecord.
    unfold lift_M. rewrite Happly. reflexivity.
  - intros w' Hnone.
    unfold QuerySchedule, mbind, M_bind, bind_M. rewrite Hnone. reflexivity.
  - intros sch w' Hsch.
    unfold QueryIRModule, mbind, M_bind, bind_M. rewrite Hsch. reflexivity.
  - intros w' Hnone.
    unfold QueryIRModule, mbind, M_bind, bind_M. rewrite Hnone. reflexivity.
Qed.

End FacadeClaims.

(** The facade on the in-memory store.  The query program [prog_BB] has the
    hash of the stored program [prog_Aa]. *)
Lemma QueryTuningRecord_algorithm_witness :
  QueryTuningRecord (this := Sample.memory_db) Sample.prog_f "llvm"
      (mkWorld Sample.two_records []) =
    (Ok None, mkWorld Sample.two_records [CallHasWorkload Sample.prog_f])
  /\ QueryTuningRecord (this := Sample.memory_db) Sample.prog_BB "llvm"
      (mkWorld Sample.two_records []) =
    (Ok (Some Sample.record_fast),
     mkWorld Sample.two_records
       [CallHasWorkload Sample.prog_BB; CallCommitWorkload Sample.prog_BB;
        CallGetTopK (Workload_from_mod Sample.prog_Aa) 1]).
Proof.
  split.
  - apply (proj1 (QueryTuningRecord_algorithm (this := Sample.memory_db)
                    Sample.prog_f "llvm" (mkWorld Sample.two_records []))).
    vm_compute. reflexivity.
  - apply (proj2 (QueryTuningRecord_algorithm (this := Sample.memory_db)
                    Sample.prog_BB "llvm" (mkWorld Sample.two_records []))
             Sample.two_records (Workload_from_mod Sample.prog_Aa)
             Sample.two_records [Sample.record_fast] Sample.two_records).
    + vm_compute. reflexivity.
    + vm_compute. reflexivity.
    + vm_compute. reflexivity.
Defined.

(** C3 as stated fails: the callback-bridged database below answers
    [GetTopK(w, 1)] with two records, and [QueryTuningRecord] does not return
    the first of them. *)
Lemma QueryTuningRecord_first_record_counterexample :
  HasWorkload (DatabaseNode := Sample.unbounded_db) Sample.prog_BB Sample.two_records
    = (Ok true, Sample.two_records)
  /\ CommitWorkload (DatabaseNode := Sample.unbounded_db) Sample.prog_BB Sample.two_records
    = (Ok (Workload_from_mod Sample.prog_Aa), Sample.two_records)
  /\ GetTopK (DatabaseNode := Sample.unbounded_db) (Workload_from_mod Sample.prog_Aa) 1
       Sample.two_records
    = (Ok [Sample.record_fast; Sample.record_slow], Sample.two_records)
  /\ fst (QueryTuningRecord (this := Sample.unbounded_db) Sample.prog_BB "llvm"
            (mkWorld Sample.two_records []))
    = Throw (CheckFailed "records.size() == 1" "")
  /\ fst (QueryTuningRecord (this := Sample.unbounded_db) Sample.prog_BB "llvm"
            (mkWorld Sample.two_records []))
    <> Ok (Some Sample.record_fast).
Proof. vm_compute. repeat split; discriminate. Qed.

Lemma QueryTuningRecord_sole_record_witness :
  (exists s1 wl s2,
      HasWorkload (DatabaseNode := Sample.memory_db) Sample.prog_BB Sample.two_records
        = (Ok true, s1)
      /\ CommitWorkload (DatabaseNode := Sample.memory_db) Sample.prog_BB s1 = (Ok wl, s2)
      /\ GetTopK (DatabaseNode := Sample.memory_db) wl 1 s2
         = (Ok [Sample.record_fast], Sample.two_records))
  /\ fst (QueryTuningRecord (this := Sample.unbounded_db) Sample.prog_BB "llvm"
            (mkWorld Sample.one_record []))
     = Ok (Some Sample.record_slow)
  /\ fst (QueryTuningRecord (this := Sample.unbounded_db) Sample.prog_BB "llvm"
            (mkWorld Sample.two_records []))
     = Throw (CheckFailed "records.size() == 1" "").
Proof.
  split; [|split].
  - apply (proj1 (QueryTuningRecord_sole_record (this := Sample.memory_db)
                    Sample.prog_BB "llvm" (mkWorld Sample.two_records []))
             Sample.record_fast
             (mkWorld Sample.two_records
                [CallHasWorkload Sample.prog_BB; CallCommitWorkload Sample.prog_BB;
                 CallGetTopK (Workload_from_mod Sample.prog_Aa) 1])).
    vm_compute. reflexivity.
  - apply (proj1 (proj2 (QueryTuningRecord_sole_record (this := Sample.unbounded_db)
                           Sample.prog_BB "llvm" (mkWorld Sample.one_record [])))
             Sample.one_record (Workload_from_mod Sample.prog_Aa)
             Sample.one_record Sample.one_record).
    + vm_compute. reflexivity.
    + vm_compute. reflexivity.
    + vm_compute. reflexivity.
  - apply (proj2 (proj2 (QueryTuningRecord_sole_record (this := Sample.unbounded_db)
                           Sample.prog_BB "llvm" (mkWorld Sample.two_records [])))
             Sample.two_records (Workload_from_mod Sample.prog_Aa)
             Sample.two_records Sample.two_records
             Sample.record_fast Sample.record_slow []).
    + vm_compute. reflexivity.
    + vm_compute. reflexivity.
    + vm_compute. reflexivity.
Defined.

(** The query program is [prog_BB]; the schedule is built from the stored
    program [prog_Aa] of the record's workload. *)
Lemma QuerySchedule_replays_stored_workload_witness :
  QuerySchedule (this := Sample.memory_db) Sample.prog_BB "llvm"
      (mkWorld Sample.one_record []) =
    (Ok (Some (Sample.mkSchedule "Aa;split;reorder" ["split"; "reorder"])),
     mkWorld Sample.one_record
       [CallHasWorkload Sample.prog_BB; CallCommitWorkload Sample.prog_BB;
        CallGetTopK (Workload_from_mod Sample.prog_Aa) 1])
  /\ QueryIRModule (this := Sample.memory_db) Sample.prog_BB "llvm"
      (mkWorld Sample.one_record []) =
    (Ok (Some (Schedule_mod (Sample.mkSchedule "Aa;split;reorder" ["split"; "reorder"]))),
     mkWorld Sample.one_record
       [CallHasWorkload Sample.prog_BB; CallCommitWorkload Sample.prog_BB;
        CallGetTopK (Workload_from_mod Sample.prog_Aa) 1])
  /\ QuerySchedule (this := Sample.memory_db) Sample.prog_f "llvm"
      (mkWorld Sample.one_record []) =
    (Ok None, mkWorld Sample.one_record [CallHasWorkload Sample.prog_f])
  /\ QueryIRModule (this := Sample.memory_db) Sample.prog_f "llvm"
      (mkWorld Sample.one_record []) =
    (Ok None, mkWorld Sample.one_record [CallHasWorkload Sample.prog_f]).
Proof.
  pose proof (QuerySchedule_replays_stored_workload (this := Sample.memory_db)
                Sample.prog_BB "llvm" (mkWorld Sample.one_record []))
    as (Hfound & _ & Hmod & _).
  pose proof (QuerySchedule_replays_stored_workload (this := Sample.memory_db)
                Sample.prog_f "llvm" (mkWorld Sample.one_record []))
    as (_ & Hnone & _ & Hmod_none).
  split; [|split; [|split]].
  - apply (Hfound Sample.record_slow); vm_compute; reflexivity.
  - apply Hmod. apply (Hfound Sample.record_slow); vm_compute; reflexivity.
  - apply Hnone. vm_compute. reflexivity.
  - apply Hmod_none. apply Hnone. vm_compute. reflexivity.
Defined.

(** ** Scoped context stack *)

Section ScopeProperties.
Context {Database : Type}.
Implicit Types (σ : gmap thread_id (list Database)) (db : Database).
Implicit Types (ops : list (thread_id * ScopeOp (Database := Database))).

Lemma Current_last tid σ : Current tid σ = last (ThreadLocalDatabases tid σ).
Proof. unfold Current. destruct (ThreadLocalDatabases tid σ); reflexivity. Qed.

Lemma thread_history_snoc tid ops (op : thread_id * ScopeOp) :
  thread_history tid (ops ++ [op]) =
    thread_history tid ops ++ (if decide (op.1 = tid) then [op.2] else []).
Proof.
  unfold thread_history. rewrite omap_app. simpl.
  destruct (decide (op.1 = tid)); reflexivity.
Qed.

Lemma agrees_start : agrees (Database := Database) [] ∅.
Proof.
  intros tid k. unfold ThreadLocalDatabases. rewrite lookup_total_empty.
  reflexivity.
Qed.

Lemma ExitWithScope_Ok tid σ σ' (u : unit) :
  ExitWithScope tid σ = (Ok u, σ') ->
  exists tls top,
    ThreadLocalDatabases tid σ = tls ++ [top] /\ σ' = <[tid := tls]> σ.
Proof.
  unfold ExitWithScope.
  destruct (ThreadLocalDatabases tid σ) as [|d0 tls0] eqn:Htls; [discriminate|].
  destruct (exists_last (l := d0 :: tls0)) as (tls & top & Hlast); [discriminate|].
  rewrite Hlast, removelast_last.
  intros H. injection H as _ <-. eauto.
Qed.

Lemma agrees_step ops σ σ' (op : thread_id * ScopeOp) (u : unit) :
  agrees ops σ -> scope_step op σ = (Ok u, σ') -> agrees (ops ++ [op]) σ'.
Proof.
  intros Hagree Hstep tid k. rewrite thread_history_snoc.
  destruct op as [t [db|]]; simpl in *.
  - unfold EnterWithScope in Hstep. injection Hstep as _ <-.
    unfold agrees, ThreadLocalDatabases in *.
    destruct (decide (t = tid)) as [->|Hne].
    + rewrite lookup_total_insert_eq, !reverse_snoc. simpl.
      destruct k as [|k]; [reflexivity|]. simpl. apply Hagree.
    + rewrite lookup_total_insert_ne by assumption. rewrite app_nil_r. apply Hagree.
  - apply ExitWithScope_Ok in Hstep as (tls & top & Htls & ->).
    unfold agrees, ThreadLocalDatabases in *.
    destruct (decide (t = tid)) as [->|Hne].
    + rewrite lookup_total_insert_eq, reverse_snoc. simpl.
      rewrite Hagree, Htls, reverse_snoc. reflexivity.
    + rewrite lookup_total_insert_ne by assumption. rewrite app_nil_r. apply Hagree.
Qed.

Lemma agrees_run ops : forall past σ σ',
  agrees past σ -> run_scope ops σ = Ok σ' -> agrees (past ++ ops) σ'.
Proof.
  induction ops as [|op ops IH]; intros past σ σ' Hagree Hrun; simpl in Hrun.
  - injection Hrun as <-. rewrite app_nil_r. exact Hagree.
  - destruct (scope_step op σ) as [[u| | |] σ1] eqn:Hstep; try discriminate.
    replace (past ++ op :: ops) with ((past ++ [op]) ++ ops)
      by (rewrite <- app_assoc; reflexivity).
    apply (IH _ σ1); [|exact Hrun].
    exact (agrees_step past σ σ1 op u Hagree Hstep).
Qed.

Lemma Current_after_run ops σ tid :
  run_scope ops ∅ = Ok σ ->
  Current tid σ = most_recent_open (thread_history tid ops).
Proof.
  intros Hrun.
  pose proof (agrees_run ops [] ∅ σ agrees_start Hrun tid 0) as H.
  simpl in H. unfold most_recent_open. rewrite H.
  rewrite Current_last, <- head_lookup, head_reverse. reflexivity.
Qed.

Lemma Enter_then_Current db tid σ :
  Current tid (EnterWithScope db tid σ).2 = Some db.
Proof.
  rewrite Current_last. unfold EnterWithScope, ThreadLocalDatabases. simpl.
  rewrite lookup_total_insert_eq. apply last_snoc.
Qed.

Lemma ExitWithScope_nonempty tid σ (tls : list Database) (top : Database) :
  ThreadLocalDatabases tid σ = tls ++ [top] ->
  ExitWithScope tid σ = (Ok tt, <[tid := tls]> σ).
Proof.
  intros Htls. unfold ExitWithScope. rewrite Htls.
  destruct (tls ++ [top]) as [|d0 tls0] eqn:Hpush.
  - destruct tls; discriminate.
  - rewrite <- Hpush, removelast_last. reflexivity.
Qed.

Lemma ExitWithScope_empty tid σ :
  ThreadLocalDatabases tid σ = [] -> ExitWithScope tid σ = (Undefined, σ).
Proof. intros Htls. unfold ExitWithScope. rewrite Htls. reflexivity. Qed.

Lemma Enter_then_Exit db tid σ :
  ExitWithScope tid (EnterWithScope db tid σ).2
    = (Ok tt, <[tid := ThreadLocalDatabases tid σ]> σ).
Proof.
  rewrite (ExitWithScope_nonempty tid _ (ThreadLocalDatabases tid σ) db).
  - unfold EnterWithScope. simpl. rewrite insert_insert_eq. reflexivity.
  - unfold EnterWithScope, ThreadLocalDatabases. simpl.
    apply lookup_total_insert_eq.
Qed.

Lemma thread_history_cons tid ops (op : thread_id * ScopeOp) :
  thread_history tid (op :: ops) =
    (if decide (op.1 = tid) then [op.2] else []) ++ thread_history tid ops.
Proof.
  unfold thread_history. simpl. destruct (decide (op.1 = tid)); reflexivity.
Qed.

(** The run is defined exactly on the histories in which, on every thread,
    each exit is paired with an earlier entry. *)
Lemma run_scope_paired ops : forall σ,
  (exists σ', run_scope ops σ = Ok σ') <->
  (forall tid,
      paired_from (length (ThreadLocalDatabases tid σ)) (thread_history tid ops) = true).
Proof.
  induction ops as [|[t op] ops IH]; intros σ.
  - simpl. split; [reflexivity | eauto].
  - destruct op as [db|]; simpl run_scope.
    + unfold EnterWithScope. rewrite IH. unfold ThreadLocalDatabases.
      split; intros H tid; specialize (H tid); rewrite thread_history_cons in *;
        simpl in *; destruct (decide (t = tid)) as [->|Hne]; simpl in *.
      * rewrite lookup_total_insert_eq, length_app, Nat.add_1_r in H. exact H.
      * rewrite lookup_total_insert_ne in H by assumption. exact H.
      * rewrite lookup_total_insert_eq, length_app, Nat.add_1_r. exact H.
      * rewrite lookup_total_insert_ne by assumption. exact H.
    + destruct (ThreadLocalDatabases t σ) as [|d0 tls0] eqn:Htls.
      * rewrite (ExitWithScope_empty t σ Htls). split.
        -- intros [σ' H]. discriminate.
        -- intros H. specialize (H t). rewrite thread_history_cons, Htls in H.
           simpl in H. destruct (decide (t = t)); [discriminate | congruence].
      * destruct (exists_last (l := d0 :: tls0)) as (tls & top & Hlast); [discriminate|].
        rewrite Hlast in Htls.
        rewrite (ExitWithScope_nonempty t σ tls top Htls), IH.
        unfold ThreadLocalDatabases in *.
        split; intros H tid; specialize (H tid); rewrite thread_history_cons in *;
          simpl in *; destruct (decide (t = tid)) as [->|Hne]; simpl in *.
        -- rewrite Htls, length_app, Nat.add_1_r.
           rewrite lookup_total_insert_eq in H. exact H.
        -- rewrite lookup_total_insert_ne in H by assumption. exact H.
        -- rewrite Htls, length_app, Nat.add_1_r in H.
           rewrite lookup_total_insert_eq. exact H.
        -- rewrite lookup_total_insert_ne by assumption. exact H.
Qed.

Lemma run_scope_defined ops :
  (forall tid, paired (thread_history tid ops) = true) ->
  exists σ : gmap thread_id (list Database), run_scope ops ∅ = Ok σ.
Proof.
  intros Hpaired. apply run_scope_paired. intros tid.
  unfold ThreadLocalDatabases. rewrite lookup_total_empty. apply Hpaired.
Qed.

End ScopeProperties.

Section ScopeClaims.
Context {Database : Type}.

(** C8.  On every thread the scope stack is last-in first-out.  [Current]
    is none before any entry.  After entering [db1] and then [db2],
    [Current] is [db2]; the next exit completes and leaves [db1] current.
    For every history in which each exit is paired with an earlier entry of
    its thread the run is defined, and after it [Current] on a thread is the
    database that thread entered most recently and has not exited, or none
    when the thread has none open. *)
Theorem Current_is_most_recent_open_scope :
  (forall tid, Current tid (∅ : gmap thread_id (list Database)) = None)
  /\ (forall tid (db1 db2 : Database) (σ : gmap thread_id (list Database)),
      Current tid (EnterWithScope db2 tid (EnterWithScope db1 tid σ).2).2 = Some db2
      /\ exists σ3,
          ExitWithScope tid (EnterWithScope db2 tid (EnterWithScope db1 tid σ).2).2
            = (Ok tt, σ3)
          /\ Current tid σ3 = Some db1)
  /\ (forall ops : list (thread_id * ScopeOp),
      (forall tid, paired (thread_history tid ops) = true) ->
      exists σ : gmap thread_id (list Database), run_scope ops ∅ = Ok σ)
  /\ (forall (ops : list (thread_id * ScopeOp)) (σ : gmap thread_id (list Database)) tid,
      run_scope ops ∅ = Ok σ ->
      Current tid σ = most_recent_open (thread_history tid ops)).
Proof.
  split; [|split; [|split]].
  - intros tid. unfold Current, ThreadLocalDatabases.
    rewrite lookup_total_empty. reflexivity.
  - intros tid db1 db2 σ. split; [apply Enter_then_Current|].
    eexists. split; [apply Enter_then_Exit|].
    rewrite Current_last. unfold ThreadLocalDatabases.
    rewrite lookup_total_insert_eq.
    unfold EnterWithScope, ThreadLocalDatabases. simpl.
    rewrite lookup_total_insert_eq. apply last_snoc.
  - apply run_scope_defined.
  - intros ops σ tid Hrun. exact (Current_after_run ops σ tid Hrun).
Qed.

(** C9 (amended).  [ExitWithScope] pops the calling thread's vector without
    testing it.  On an empty vector the call has no defined behaviour; it
    never raises an error.  On a non-empty vector it removes the database
    entered last and returns. *)
Theorem ExitWithScope_unchecked (tid : thread_id) (σ : gmap thread_id (list Database)) :
  (ThreadLocalDatabases tid σ = [] -> ExitWithScope tid σ = (Undefined, σ))
  /\ (forall tls top,
      ThreadLocalDatabases tid σ = tls ++ [top] ->
      ExitWithScope tid σ = (Ok tt, <[tid := tls]> σ))
  /\ (forall e σ', ExitWithScope tid σ <> (Throw e, σ')).
Proof.
  split; [|split].
  - apply ExitWithScope_empty.
  - apply ExitWithScope_nonempty.
  - intros e σ'. unfold ExitWithScope.
    destruct (ThreadLocalDatabases tid σ); discriminate.
Qed.

End ScopeClaims.

(** Thread 0 enters 1 and 2 and leaves 2; thread 1 enters 5 in between. *)
Lemma Current_is_most_recent_open_scope_witness :
  exists σ : gmap thread_id (list nat),
    run_scope [(0, Enter 1); (0, Enter 2); (1, Enter 5); (0, Exit)] ∅ = Ok σ
    /\ Current 0 σ = Some 1
    /\ Current 1 σ = Some 5
    /\ Current 2 σ = None.
Proof.
  pose proof (Current_is_most_recent_open_scope (Database := nat))
    as (_ & _ & Hdefined & Hcurrent).
  destruct (Hdefined [(0, Enter 1); (0, Enter 2); (1, Enter 5); (0, Exit)]) as [σ Hrun].
  - intros [|[|tid]]; reflexivity.
  - exists σ. split; [exact Hrun|].
    rewrite (Hcurrent _ σ 0 Hrun), (Hcurrent _ σ 1 Hrun), (Hcurrent _ σ 2 Hrun).
    split; [|split]; reflexivity.
Defined.

(** C9 as stated fails: exiting on a thread that never entered a scope
    raises nothing. *)
Lemma ExitWithScope_empty_counterexample :
  ExitWithScope 0 (∅ : gmap thread_id (list nat)) = (Undefined, ∅)
  /\ ~ (exists e σ', ExitWithScope 0 (∅ : gmap thread_id (list nat)) = (Throw e, σ')).
Proof.
  split.
  - reflexivity.
  - intros (e & σ' & H). discriminate H.
Qed.

Lemma ExitWithScope_unchecked_witness :
  ExitWithScope 0 (∅ : gmap thread_id (list nat)) = (Undefined, ∅)
  /\ ExitWithScope 0 (<[0 := [7; 8]]> (∅ : gmap thread_id (list nat)))
     = (Ok tt, <[0 := [7]]> (<[0 := [7; 8]]> ∅)).
Proof.
  split.
  - apply (proj1 (ExitWithScope_unchecked 0 (∅ : gmap thread_id (list nat)))).
    reflexivity.
  - apply (proj1 (proj2 (ExitWithScope_unchecked 0
                           (<[0 := [7; 8]]> (∅ : gmap thread_id (list nat)))))
             [7] 8).
    reflexivity.
Defined.

(** * Further properties of the decoders *)

Lemma map_outcome_first_failure {A B} (f : A -> outcome B) (good rest : list A)
    (bad : A) (parsed : list B) (e : Error) :
  map_outcome f good = Ok parsed ->
  f bad = Throw e ->
  map_outcome f (good ++ bad :: rest) = Throw e.
Proof.
  revert parsed. induction good as [|x good IH]; intros parsed Hgood Hbad; simpl.
  - rewrite Hbad. reflexivity.
  - simpl in Hgood. destruct (f x) as [y| | |]; simpl in *; try discriminate.
    destruct (map_outcome f good) as [ys| | |] eqn:Hys; simpl in *; try discriminate.
    rewrite (IH ys eq_refl Hbad). reflexivity.
Qed.

Section WorkloadDecoding.
Context `{C : Collaborators}.

(** [Workload::FromJSON] on a value of the wrong shape.  A value that is
    not an array of exactly two elements fails the size check; an element
    that is not a string (a null included) fails its downcast.  Each ends in
    the fatal parse failure quoting the value and that error. *)
Theorem Workload_FromJSON_malformed :
  (forall json_obj : ObjectRef,
      (forall a, as_ArrayNode json_obj = Some a -> length a <> 2) ->
      Workload_FromJSON json_obj =
        Fatal (parse_failure json_obj
                 (CheckFailed "json_array && json_array->size() == 2" "")))
  /\ (forall o0 o1 : ObjectRef,
      (forall s, o0 <> ObjString s) ->
      Workload_FromJSON (ObjArray [o0; o1]) =
        Fatal (parse_failure (ObjArray [o0; o1])
                 (DowncastFailed (GetTypeKey o0) "runtime.String")))
  /\ (forall (str_shash : string) (o1 : ObjectRef),
      (forall s, o1 <> ObjString s) ->
      Workload_FromJSON (ObjArray [ObjString str_shash; o1]) =
        Fatal (parse_failure (ObjArray [ObjString str_shash; o1])
                 (DowncastFailed (GetTypeKey o1) "runtime.String"))).
Proof.
  split; [|split].
  - intros json_obj Hshape. unfold Workload_FromJSON, Workload_FromJSON_try.
    destruct (as_ArrayNode json_obj) as [a|] eqn:Ha; simpl.
    + specialize (Hshape a eq_refl). apply Nat.eqb_neq in Hshape.
      rewrite Hshape. reflexivity.
    + reflexivity.
  - intros o0 o1 Hnot. unfold Workload_FromJSON, Workload_FromJSON_try.
    destruct o0; try reflexivity. destruct (Hnot s eq_refl).
  - intros str_shash o1 Hnot. unfold Workload_FromJSON, Workload_FromJSON_try.
    destruct o1; try reflexivity. destruct (Hnot s eq_refl).
Qed.

(** An error raised while the program is transported back (base64 decoding,
    JSON loading, or a loaded object that is not a module) reaches the caller
    as the fatal parse failure carrying that very error; the stored hash
    string is not looked at. *)
Theorem Workload_FromJSON_collaborator_error (str_shash b64_mod : string) :
  (forall e, Base64Decode b64_mod = Throw e ->
      Workload_FromJSON (ObjArray [ObjString str_shash; ObjString b64_mod]) =
        Fatal (parse_failure (ObjArray [ObjString str_shash; ObjString b64_mod]) e))
  /\ (forall json_mod e,
      Base64Decode b64_mod = Ok json_mod -> LoadJSON json_mod = Throw e ->
      Workload_FromJSON (ObjArray [ObjString str_shash; ObjString b64_mod]) =
        Fatal (parse_failure (ObjArray [ObjString str_shash; ObjString b64_mod]) e))
  /\ (forall json_mod loaded,
      Base64Decode b64_mod = Ok json_mod -> LoadJSON json_mod = Ok loaded ->
      (forall m, loaded <> ObjIRModule m) ->
      Workload_FromJSON (ObjArray [ObjString str_shash; ObjString b64_mod]) =
        Fatal (parse_failure (ObjArray [ObjString str_shash; ObjString b64_mod])
                 (DowncastFailed (GetTypeKey loaded) "IRModule"))).
Proof.
  split; [|split].
  - intros e Hb. unfold Workload_FromJSON, Workload_FromJSON_try. simpl.
    rewrite Hb. reflexivity.
  - intros json_mod e Hb Hl. unfold Workload_FromJSON, Workload_FromJSON_try. simpl.
    rewrite Hb. simpl. rewrite Hl. reflexivity.
  - intros json_mod loaded Hb Hl Hnot.
    unfold Workload_FromJSON, Workload_FromJSON_try. simpl.
    rewrite Hb. simpl. rewrite Hl. simpl.
    destruct loaded; try reflexivity. destruct (Hnot m eq_refl).
Qed.

(** Encoding does not verify the hash of a workload built from a program and
    a caller-supplied hash.  Where the transport round-trips, decoding its
    encoding succeeds exactly when the string of the supplied hash is the
    string of the program's hash, and the decoded workload then carries the
    recomputed hash; otherwise the decode ends in the hash-changed failure. *)
Theorem Workload_trusted_hash_round_trip (p p' : IRModule) (h : THashCode) :
  Base64Decode (Base64Encode (SaveJSON p)) = Ok (SaveJSON p) ->
  LoadJSON (SaveJSON p) = Ok (ObjIRModule p') ->
  (SHash2Str (StructuralHash p') = SHash2Str h ->
     Workload_FromJSON (Workload_AsJSON (Workload_from_mod_shash p h)) =
       Ok (Workload_from_mod_shash p' (StructuralHash p')))
  /\ (SHash2Str (StructuralHash p') <> SHash2Str h ->
     Workload_FromJSON (Workload_AsJSON (Workload_from_mod_shash p h)) =
       Fatal (parse_failure (Workload_AsJSON (Workload_from_mod_shash p h))
                (CheckFailed "recalc_shash == str_shash"
                   (hash_changed (SHash2Str h) (SHash2Str (StructuralHash p')))))).
Proof.
  intros Hb Hl.
  split; intros Hstr;
    unfold Workload_FromJSON, Workload_FromJSON_try, Workload_AsJSON; simpl;
    rewrite Hb; simpl; rewrite Hl; simpl.
  - rewrite Hstr, String.eqb_refl. reflexivity.
  - apply String.eqb_neq in Hstr. rewrite Hstr. reflexivity.
Qed.

End WorkloadDecoding.

Lemma Workload_FromJSON_malformed_witness :
  Workload_FromJSON (ObjArray [ObjString "1"; ObjString "e2lyPXh9"; ObjNull]) =
    Fatal (parse_failure (ObjArray [ObjString "1"; ObjString "e2lyPXh9"; ObjNull])
             (CheckFailed "json_array && json_array->size() == 2" ""))
  /\ Workload_FromJSON (ObjArray [ObjIntImm 8839; ObjString "e2lyPXh9"]) =
    Fatal (parse_failure (ObjArray [ObjIntImm 8839; ObjString "e2lyPXh9"])
             (DowncastFailed "IntImm" "runtime.String"))
  /\ Workload_FromJSON (ObjArray [ObjString "8839"; ObjNull]) =
    Fatal (parse_failure (ObjArray [ObjString "8839"; ObjNull])
             (DowncastFailed "(nullptr)" "runtime.String")).
Proof.
  pose proof (Workload_FromJSON_malformed (C := Sample.collaborators))
    as (Hsize & Hfirst & Hsecond).
  split; [|split].
  - apply Hsize. intros a Ha. injection Ha as <-. simpl. lia.
  - apply (Hfirst (ObjIntImm 8839)). intros s. discriminate.
  - apply (Hsecond "8839" ObjNull). intros s. discriminate.
Defined.

Lemma Workload_FromJSON_collaborator_error_witness :
  Workload_FromJSON (ObjArray [ObjString "1"; ObjString "x"]) =
    Fatal (parse_failure (ObjArray [ObjString "1"; ObjString "x"])
             Sample.invalid_base64)
  /\ Workload_FromJSON (ObjArray [ObjString "1"; ObjString "eA=="]) =
    Fatal (parse_failure (ObjArray [ObjString "1"; ObjString "eA=="])
             (CollaboratorError "malformed module text")).
Proof.
  pose proof (Workload_FromJSON_collaborator_error (C := Sample.collaborators) "1" "x")
    as (Hb64 & _ & _).
  pose proof (Workload_FromJSON_collaborator_error (C := Sample.collaborators) "1" "eA==")
    as (_ & Hload & _).
  split.
  - apply Hb64. vm_compute. reflexivity.
  - apply (Hload "x"); vm_compute; reflexivity.
Defined.

Lemma Workload_trusted_hash_round_trip_witness :
  Workload_FromJSON (Workload_AsJSON (Workload_from_mod_shash Sample.prog_f 8814089351925%N))
    = Ok (Workload_from_mod_shash Sample.prog_f (StructuralHash Sample.prog_f))
  /\ Workload_FromJSON (Workload_AsJSON (Workload_from_mod_shash Sample.prog_f 5%N))
    = Fatal (parse_failure (Workload_AsJSON (Workload_from_mod_shash Sample.prog_f 5%N))
               (CheckFailed "recalc_shash == str_shash"
                  (hash_changed (SHash2Str 5%N) (SHash2Str (StructuralHash Sample.prog_f))))).
Proof.
  split.
  - apply (proj1 (Workload_trusted_hash_round_trip (C := Sample.collaborators)
                    Sample.prog_f Sample.prog_f 8814089351925%N eq_refl eq_refl)).
    vm_compute. reflexivity.
  - apply (proj2 (Workload_trusted_hash_round_trip (C := Sample.collaborators)
                    Sample.prog_f Sample.prog_f 5%N eq_refl eq_refl)).
    vm_compute. discriminate.
Defined.

Section TuningRecordDecoding.
Context `{C : Collaborators} {E : Exporters}.

(** Decoding what [TuningRecordNode::AsJSON] produced, against the record's
    own workload, gives the record back: absent fields stay absent, present
    ones go through their parsers.  The parsers are assumed to undo the
    exporters on the fields of this record, and replaying the exported trace
    on a fresh schedule of the workload's program to yield that trace. *)
Theorem TuningRecord_JSON_round_trip (r : TuningRecord) (sch : Schedule) :
  (forall secs, run_secs r = Some secs ->
      AsFloatArray (ObjArray (List.map ObjFloatImm secs)) = Ok secs) ->
  (forall t, target r = Some t -> Target_from_config (Target_Export t) = Ok t) ->
  (forall infos, args_info r = Some infos ->
      map_outcome ArgInfo_FromJSON (List.map ArgInfo_AsJSON infos) = Ok infos) ->
  ApplyJSONToSchedule (Trace_AsJSON (trace r) false)
    (Schedule_Traced (mod_ (workload r)) (-1) 0 kNone) = Ok sch ->
  Schedule_trace sch = Some (trace r) ->
  TuningRecord_FromJSON (TuningRecord_AsJSON r) (workload r) = Ok r.
Proof.
  destruct r as [tr wl rs tg ai]. simpl. intros Hrs Htg Hai Happly Htrace.
  unfold TuningRecord_FromJSON, TuningRecord_FromJSON_try, TuningRecord_AsJSON, at_.
  simpl.
  destruct rs as [secs|]; simpl; [rewrite (Hrs secs eq_refl); simpl|];
    (destruct tg as [t|]; simpl; [rewrite (Htg t eq_refl); simpl|]);
    (destruct ai as [infos|]; simpl; [rewrite (Hai infos eq_refl); simpl|]);
    rewrite Happly; simpl; rewrite Htrace; reflexivity.
Qed.

(** The fields are parsed in the order run_secs, target, args_info, trace,
    and the first error is the one reported.  A failing run_secs is reported
    whatever the later elements are, a non-array args_info included; a
    defined target that is not a map is reported as a failed downcast; the
    first element of args_info that fails to parse is reported.  In none of
    these cases does the outcome depend on the trace element. *)
Theorem TuningRecord_FromJSON_error_order (o0 o1 o2 o3 : ObjectRef) (wl : Workload) :
  (forall e,
      defined o1 = true -> AsFloatArray o1 = Throw e ->
      TuningRecord_FromJSON (ObjArray [o0; o1; o2; o3]) wl =
        Fatal (parse_failure (ObjArray [o0; o1; o2; o3]) e))
  /\ (defined o1 = false \/ (exists secs, AsFloatArray o1 = Ok secs) ->
      defined o2 = true -> (forall config, o2 <> ObjMap config) ->
      TuningRecord_FromJSON (ObjArray [o0; o1; o2; o3]) wl =
        Fatal (parse_failure (ObjArray [o0; o1; o2; o3])
                 (DowncastFailed (GetTypeKey o2) "Map")))
  /\ (forall good bad rest parsed e,
      defined o1 = false \/ (exists secs, AsFloatArray o1 = Ok secs) ->
      defined o2 = false
        \/ (exists config t, o2 = ObjMap config /\ Target_from_config config = Ok t) ->
      o3 = ObjArray (good ++ bad :: rest) ->
      map_outcome ArgInfo_FromJSON good = Ok parsed ->
      ArgInfo_FromJSON bad = Throw e ->
      TuningRecord_FromJSON (ObjArray [o0; o1; o2; o3]) wl =
        Fatal (parse_failure (ObjArray [o0; o1; o2; o3]) e)).
Proof.
  split; [|split].
  - intros e Hdef Hthrow.
    unfold TuningRecord_FromJSON, TuningRecord_FromJSON_try, at_.
    destruct o1; try discriminate Hdef; simpl; rewrite Hthrow; reflexivity.
  - intros Hsecs Hdef Hnot.
    unfold TuningRecord_FromJSON, TuningRecord_FromJSON_try, at_. simpl.
    assert (exists rs, (if defined o1
                        then r ← AsFloatArray o1; Ok (Some r)
                        else Ok None) = Ok rs) as [rs ->].
    { destruct Hsecs as [-> | [secs Hsecs]]; [eauto|].
      destruct (defined o1); [|eauto]. rewrite Hsecs. simpl. eauto. }
    simpl. destruct o2 as [ | s | elems | config | v | v | m | k ];
      try discriminate Hdef; try reflexivity.
    destruct (Hnot config eq_refl).
  - intros good bad rest parsed e Hsecs Htarget -> Hgood Hbad.
    unfold TuningRecord_FromJSON, TuningRecord_FromJSON_try, at_. simpl.
    assert (exists rs, (if defined o1
                        then r ← AsFloatArray o1; Ok (Some r)
                        else Ok None) = Ok rs) as [rs ->].
    { destruct Hsecs as [-> | [secs Hsecs]]; [eauto|].
      destruct (defined o1); [|eauto]. rewrite Hsecs. simpl. eauto. }
    simpl.
    assert (exists tg, (if defined o2
                        then config ← Downcast_Map o2;
                             t ← Target_from_config config; Ok (Some t)
                        else Ok None) = Ok tg) as [tg ->].
    { destruct Htarget as [-> | (config & t & -> & Ht)]; [eauto|].
      simpl. rewrite Ht. simpl. eauto. }
    simpl. rewrite (map_outcome_first_failure _ good rest bad parsed e Hgood Hbad).
    reflexivity.
Qed.

End TuningRecordDecoding.

Lemma TuningRecord_JSON_round_trip_witness :
  TuningRecord_FromJSON (TuningRecord_AsJSON SampleExport.record_full)
    (workload SampleExport.record_full) = Ok SampleExport.record_full.
Proof.
  apply (TuningRecord_JSON_round_trip (C := Sample.collaborators)
           (E := SampleExport.exporters) SampleExport.record_full
           (Sample.mkSchedule "Aa;split;reorder" ["split"; "reorder"])).
  - intros secs H. injection H as <-. vm_compute. reflexivity.
  - intros t H. injection H as <-. vm_compute. reflexivity.
  - intros infos H. injection H as <-. vm_compute. reflexivity.
  - vm_compute. reflexivity.
  - vm_compute. reflexivity.
Defined.

Lemma TuningRecord_FromJSON_error_order_witness :
  TuningRecord_FromJSON
    (ObjArray [ObjArray [ObjString "split"]; ObjString "slow"; ObjNull; ObjString "float32"])
    (Workload_from_mod Sample.prog_f) =
    Fatal (parse_failure
             (ObjArray [ObjArray [ObjString "split"]; ObjString "slow"; ObjNull;
                        ObjString "float32"])
             (CheckFailed "arr" "TypeError: Expect an array, but gets: runtime.String"))
  /\ TuningRecord_FromJSON
    (ObjArray [ObjIntImm 0; ObjNull; ObjString "llvm"; ObjNull])
    (Workload_from_mod Sample.prog_f) =
    Fatal (parse_failure (ObjArray [ObjIntImm 0; ObjNull; ObjString "llvm"; ObjNull])
             (DowncastFailed "runtime.String" "Map"))
  /\ TuningRecord_FromJSON
    (ObjArray [ObjIntImm 0; ObjNull; ObjNull;
               ObjArray ([ObjString "float32"] ++ ObjNull :: [ObjIntImm 3])])
    (Workload_from_mod Sample.prog_f) =
    Fatal (parse_failure
             (ObjArray [ObjIntImm 0; ObjNull; ObjNull;
                        ObjArray ([ObjString "float32"] ++ ObjNull :: [ObjIntImm 3])])
             (CollaboratorError "ValueError: unable to parse the ArgInfo")).
Proof.
  split; [|split].
  - apply (proj1 (TuningRecord_FromJSON_error_order (C := Sample.collaborators)
                    (ObjArray [ObjString "split"]) (ObjString "slow") ObjNull
                    (ObjString "float32") (Workload_from_mod Sample.prog_f))).
    + reflexivity.
    + vm_compute. reflexivity.
  - apply (proj1 (proj2 (TuningRecord_FromJSON_error_order (C := Sample.collaborators)
                           (ObjIntImm 0) ObjNull (ObjString "llvm") ObjNull
                           (Workload_from_mod Sample.prog_f)))).
    + left. reflexivity.
    + reflexivity.
    + intros config. discriminate.
  - apply (proj2 (proj2 (TuningRecord_FromJSON_error_order (C := Sample.collaborators)
                           (ObjIntImm 0) ObjNull ObjNull
                           (ObjArray ([ObjString "float32"] ++ ObjNull :: [ObjIntImm 3]))
                           (Workload_from_mod Sample.prog_f)))
             [ObjString "float32"] ObjNull [ObjIntImm 3] ["float32"]).
    + left. reflexivity.
    + left. reflexivity.
    + reflexivity.
    + vm_compute. reflexivity.
    + vm_compute. reflexivity.
Defined.

Lemma TuningRecord_FromJSON_wrong_arity_witness :
  TuningRecord_FromJSON (ObjString "record") (Workload_from_mod Sample.prog_f) =
    Fatal (parse_failure (ObjString "record")
             (CheckFailed "json_array && json_array->size() == 4" ""))
  /\ TuningRecord_FromJSON (ObjArray [ObjNull; ObjNull; ObjNull])
       (Workload_from_mod Sample.prog_f) =
    Fatal (parse_failure (ObjArray [ObjNull; ObjNull; ObjNull])
             (CheckFailed "json_array && json_array->size() == 4" "")).
Proof.
  split.
  - apply (TuningRecord_FromJSON_wrong_arity (C := Sample.collaborators)).
    intros a Ha. discriminate Ha.
  - apply (TuningRecord_FromJSON_wrong_arity (C := Sample.collaborators)).
    intros a Ha. injection Ha as <-. simpl. lia.
Defined.

Lemma TuningRecord_FromJSON_Ok_inv_witness :
  exists o0 o1 o2 o3,
    TuningRecord_AsJSON SampleExport.record_full = ObjArray [o0; o1; o2; o3]
    /\ workload SampleExport.record_full = Workload_from_mod Sample.prog_Aa
    /\ exists sch,
        ApplyJSONToSchedule o0
          (Schedule_Traced (mod_ (Workload_from_mod Sample.prog_Aa)) (-1) 0 kNone) = Ok sch
        /\ Schedule_trace sch = Some (trace SampleExport.record_full).
Proof.
  destruct (TuningRecord_FromJSON_Ok_inv (C := Sample.collaborators)
              (TuningRecord_AsJSON SampleExport.record_full)
              (Workload_from_mod Sample.prog_Aa) SampleExport.record_full)
    as (o0 & o1 & o2 & o3 & Hshape & Hwl & _ & _ & _ & Htrace).
  - vm_compute. reflexivity.
  - exists o0, o1, o2, o3. auto.
Defined.

(** * Further properties of the query facade *)

Section FacadeExtras.
Context `{C : Collaborators} {E : Exporters} {St : Type} {this : DatabaseNode St}.

(** Whatever the backend answers, a query makes between one and three
    virtual calls, in the order [HasWorkload], [CommitWorkload],
    [GetTopK(_, 1)]: it never calls [CommitTuningRecord],
    [GetAllTuningRecords] or [Size], and never asks for more than one
    record. *)
Theorem QueryTuningRecord_calls (m : IRModule) (target : Target) (w : world St) :
  exists made,
    calls (QueryTuningRecord m target w).2 = calls w ++ made
    /\ (made = [CallHasWorkload m]
        \/ made = [CallHasWorkload m; CallCommitWorkload m]
        \/ exists wl, made = [CallHasWorkload m; CallCommitWorkload m; CallGetTopK wl 1]).
Proof.
  run_M.
  destruct (HasWorkload m (store w)) as [[has| | |] s1]; simpl; eauto.
  destruct has; simpl; eauto.
  destruct (CommitWorkload m s1) as [[wl| | |] s2]; simpl;
    try (eexists; split; [rewrite <- app_assoc; reflexivity | eauto]).
  destruct (GetTopK wl 1 s2) as [[records| | |] s3]; simpl;
    try (eexists; split; [rewrite <- !app_assoc; reflexivity | eauto]).
  destruct records as [|r0 [|r1 rest]]; simpl;
    (eexists; split; [rewrite <- !app_assoc; reflexivity | eauto]).
Qed.

(** The facade catches nothing: an error thrown by [HasWorkload],
    [CommitWorkload] or [GetTopK] leaves [QueryTuningRecord] as that error,
    and the calls that would have followed are not made. *)
Theorem QueryTuningRecord_propagates_errors (m : IRModule) (target : Target)
    (w : world St) (e : Error) :
  (forall s1,
      HasWorkload m (store w) = (Throw e, s1) ->
      QueryTuningRecord m target w =
        (Throw e, mkWorld s1 (calls w ++ [CallHasWorkload m])))
  /\ (forall s1 s2,
      HasWorkload m (store w) = (Ok true, s1) ->
      CommitWorkload m s1 = (Throw e, s2) ->
      QueryTuningRecord m target w =
        (Throw e, mkWorld s2 (calls w ++ [CallHasWorkload m; CallCommitWorkload m])))
  /\ (forall s1 wl s2 s3,
      HasWorkload m (store w) = (Ok true, s1) ->
      CommitWorkload m s1 = (Ok wl, s2) ->
      GetTopK wl 1 s2 = (Throw e, s3) ->
      QueryTuningRecord m target w =
        (Throw e,
         mkWorld s3
           (calls w ++ [CallHasWorkload m; CallCommitWorkload m; CallGetTopK wl 1]))).
Proof.
  split; [|split].
  - intros s1 Hhas. run_M. rewrite Hhas. reflexivity.
  - intros s1 s2 Hhas Hcommit. run_M. rewrite Hhas. simpl. rewrite Hcommit. simpl.
    rewrite <- app_assoc. reflexivity.
  - intros s1 wl s2 s3 Hhas Hcommit Htop. run_M.
    rewrite Hhas. simpl. rewrite Hcommit. simpl. rewrite Htop. simpl.
    rewrite <- !app_assoc. reflexivity.
Qed.

(** Replaying a trace does not touch the database: after [QuerySchedule] and
    after [QueryIRModule] the store and the virtual calls made are those of
    the underlying [QueryTuningRecord], whether the replay succeeds or not. *)
Theorem QuerySchedule_leaves_world (m : IRModule) (target : Target) (w : world St) :
  (QuerySchedule m target w).2 = (QueryTuningRecord m target w).2
  /\ (QueryIRModule m target w).2 = (QueryTuningRecord m target w).2.
Proof.
  unfold QueryIRModule, QuerySchedule, mbind, mret, M_bind, M_ret, bind_M, ret_M, lift_M.
  destruct (QueryTuningRecord m target w) as [[[record|]| | |] w']; simpl; auto.
  destruct (ApplyToSchedule (trace record)
              (Schedule_Traced (mod_ (workload record)) (-1) 0 kDetail) false);
    simpl; auto.
Qed.

(** The schedule that [QuerySchedule] returns for a found record is the
    schedule of that record's measure candidate, and [QueryIRModule] returns
    its program; the candidate's argument information is inferred from that
    program and is not the [args_info] stored in the record. *)
Theorem AsMeasureCandidate_matches_QuerySchedule (m : IRModule) (target : Target)
    (w w' : world St) (record : TuningRecord) (mc : MeasureCandidate) :
  QueryTuningRecord m target w = (Ok (Some record), w') ->
  TuningRecord_AsMeasureCandidate record = Ok mc ->
  QuerySchedule m target w = (Ok (Some (mc_sch mc)), w')
  /\ QueryIRModule m target w = (Ok (Some (Schedule_mod (mc_sch mc))), w')
  /\ ArgInfo_FromEntryFunc (Schedule_mod (mc_sch mc)) true = Ok (mc_args_info mc).
Proof.
  intros Hrecord Hmc. unfold TuningRecord_AsMeasureCandidate in Hmc.
  step_Ok Hmc as sch Hsch. step_Ok Hmc as inferred Hinferred.
  injection Hmc as <-. simpl.
  assert (QuerySchedule m target w = (Ok (Some sch), w')) as Hquery.
  { unfold QuerySchedule, mbind, M_bind, bind_M. rewrite Hrecord.
    unfold lift_M. rewrite Hsch. reflexivity. }
  split; [exact Hquery|]. split; [|exact Hinferred].
  unfold QueryIRModule, mbind, M_bind, bind_M. rewrite Hquery. reflexivity.
Qed.

End FacadeExtras.

Lemma QueryTuningRecord_propagates_errors_witness :
  QueryTuningRecord (this := SampleExport.dropping_db 0) Sample.prog_BB "llvm"
      (mkWorld Sample.two_records []) =
    (Throw SampleExport.connection_lost,
     mkWorld Sample.two_records [CallHasWorkload Sample.prog_BB])
  /\ QueryTuningRecord (this := SampleExport.dropping_db 1) Sample.prog_BB "llvm"
      (mkWorld Sample.two_records []) =
    (Throw SampleExport.connection_lost,
     mkWorld Sample.two_records
       [CallHasWorkload Sample.prog_BB; CallCommitWorkload Sample.prog_BB])
  /\ QueryTuningRecord (this := SampleExport.dropping_db 2) Sample.prog_BB "llvm"
      (mkWorld Sample.two_records []) =
    (Throw SampleExport.connection_lost,
     mkWorld Sample.two_records
       [CallHasWorkload Sample.prog_BB; CallCommitWorkload Sample.prog_BB;
        CallGetTopK (Workload_from_mod Sample.prog_Aa) 1]).
Proof.
  split; [|split].
  - apply (proj1 (QueryTuningRecord_propagates_errors (this := SampleExport.dropping_db 0)
                    Sample.prog_BB "llvm" (mkWorld Sample.two_records [])
                    SampleExport.connection_lost)).
    vm_compute. reflexivity.
  - apply (proj1 (proj2 (QueryTuningRecord_propagates_errors
                           (this := SampleExport.dropping_db 1)
                           Sample.prog_BB "llvm" (mkWorld Sample.two_records [])
                           SampleExport.connection_lost))
             Sample.two_records).
    + vm_compute. reflexivity.
    + vm_compute. reflexivity.
  - apply (proj2 (proj2 (QueryTuningRecord_propagates_errors
                           (this := SampleExport.dropping_db 2)
                           Sample.prog_BB "llvm" (mkWorld Sample.two_records [])
                           SampleExport.connection_lost))
             Sample.two_records (Workload_from_mod Sample.prog_Aa) Sample.two_records).
    + vm_compute. reflexivity.
    + vm_compute. reflexivity.
    + vm_compute. reflexivity.
Defined.

Lemma AsMeasureCandidate_matches_QuerySchedule_witness :
  QuerySchedule (this := Sample.memory_db) Sample.prog_BB "llvm"
      (mkWorld Sample.one_record []) =
    (Ok (Some (Sample.mkSchedule "Aa;split;reorder" ["split"; "reorder"])),
     mkWorld Sample.one_record
       [CallHasWorkload Sample.prog_BB; CallCommitWorkload Sample.prog_BB;
        CallGetTopK (Workload_from_mod Sample.prog_Aa) 1]).
Proof.
  apply (AsMeasureCandidate_matches_QuerySchedule (C := Sample.collaborators)
           (E := SampleExport.exporters) (this := Sample.memory_db)
           Sample.prog_BB "llvm" (mkWorld Sample.one_record []) _ Sample.record_slow
           (mkMeasureCandidate Sample.objects
              (Sample.mkSchedule "Aa;split;reorder" ["split"; "reorder"]) ["float32"])).
  - vm_compute. reflexivity.
  - vm_compute. reflexivity.
Defined.

(** * Further properties of the scope stack *)

Section ScopeExtras.
Context {Database : Type}.
Implicit Types (σ : gmap thread_id (list Database)) (db : Database).
Implicit Types (ops : list (thread_id * ScopeOp (Database := Database))).

Lemma run_scope_Ok_or_Undefined ops : forall σ,
  (exists σ', run_scope ops σ = Ok σ') \/ run_scope ops σ = Undefined.
Proof.
  induction ops as [|[t op] ops IH]; intros σ; simpl.
  - eauto.
  - destruct op as [db|]; simpl.
    + apply IH.
    + unfold ExitWithScope. destruct (ThreadLocalDatabases t σ); [auto|]. apply IH.
Qed.

(** After a run, the vector of a thread is what its own operations make of
    the vector it started with. *)
Lemma run_scope_thread_stack ops : forall σ σ' tid,
  run_scope ops σ = Ok σ' ->
  ThreadLocalDatabases tid σ'
    = stack_after (thread_history tid ops) (ThreadLocalDatabases tid σ).
Proof.
  induction ops as [|[t op] ops IH]; intros σ σ' tid Hrun; simpl in Hrun.
  - injection Hrun as <-. reflexivity.
  - rewrite thread_history_cons. simpl.
    destruct op as [db|].
    + unfold EnterWithScope in Hrun. rewrite (IH _ _ tid Hrun).
      unfold ThreadLocalDatabases.
      destruct (decide (t = tid)) as [->|Hne]; simpl.
      * rewrite lookup_total_insert_eq. reflexivity.
      * rewrite lookup_total_insert_ne by assumption. reflexivity.
    + destruct (ExitWithScope t σ) as [[u| | |] σ1] eqn:Hexit; try discriminate.
      apply ExitWithScope_Ok in Hexit as (tls & top & Htls & ->).
      rewrite (IH _ _ tid Hrun). unfold ThreadLocalDatabases in *.
      destruct (decide (t = tid)) as [->|Hne]; simpl.
      * rewrite lookup_total_insert_eq, Htls, removelast_last. reflexivity.
      * rewrite lookup_total_insert_ne by assumption. reflexivity.
Qed.

(** A block of operations that never exits below the level it started at
    only adds to the vector, by as many databases as it left open. *)
Lemma stack_after_block (history : list (ScopeOp (Database := Database))) :
  forall base cur,
    paired_from (length cur) history = true ->
    exists cur',
      stack_after history (base ++ cur) = base ++ cur'
      /\ length cur' + exits history = length cur + entries history.
Proof.
  induction history as [|[db|] later IH]; intros base cur Hpaired; simpl in *.
  - exists cur. split; [reflexivity | lia].
  - destruct (IH base (cur ++ [db])) as (cur' & Hstack & Hlen).
    + rewrite length_app, Nat.add_1_r. exact Hpaired.
    + exists cur'. rewrite <- app_assoc. split; [exact Hstack|].
      rewrite length_app in Hlen. simpl in Hlen. lia.
  - destruct cur as [|c cur0] using rev_ind; [discriminate|]. clear IHcur0.
    rewrite length_app, Nat.add_1_r in Hpaired.
    destruct (IH base cur0 Hpaired) as (cur' & Hstack & Hlen).
    exists cur'. rewrite app_assoc, removelast_last. split; [exact Hstack|].
    rewrite length_app. simpl. lia.
Qed.

(** Thread isolation.  What a thread finds on its vector after a run depends
    on its own operations only: two runs that interleave the same operations
    of that thread with different operations of other threads, from stores
    that agree on that thread, leave it with the same vector and the same
    current database. *)
Theorem scope_thread_isolation ops1 ops2 σ1 σ2 σ1' σ2' (tid : thread_id) :
  run_scope ops1 σ1 = Ok σ1' ->
  run_scope ops2 σ2 = Ok σ2' ->
  thread_history tid ops1 = thread_history tid ops2 ->
  ThreadLocalDatabases tid σ1 = ThreadLocalDatabases tid σ2 ->
  ThreadLocalDatabases tid σ1' = ThreadLocalDatabases tid σ2'
  /\ Current tid σ1' = Current tid σ2'.
Proof.
  intros Hrun1 Hrun2 Hhistory Hstart.
  assert (ThreadLocalDatabases tid σ1' = ThreadLocalDatabases tid σ2') as Heq.
  { rewrite (run_scope_thread_stack ops1 σ1 σ1' tid Hrun1).
    rewrite (run_scope_thread_stack ops2 σ2 σ2' tid Hrun2).
    rewrite Hhistory, Hstart. reflexivity. }
  split; [exact Heq|]. rewrite !Current_last, Heq. reflexivity.
Qed.

(** Scoped use.  A run in which a thread pairs every exit with an earlier
    entry of its own and exits as often as it enters leaves that thread's
    vector, and so its current database, as they were, whatever was on the
    vector before and whatever other threads did. *)
Theorem scoped_block_restores ops σ σ' (tid : thread_id) :
  run_scope ops σ = Ok σ' ->
  paired (thread_history tid ops) = true ->
  entries (thread_history tid ops) = exits (thread_history tid ops) ->
  ThreadLocalDatabases tid σ' = ThreadLocalDatabases tid σ
  /\ Current tid σ' = Current tid σ.
Proof.
  intros Hrun Hpaired Hcount.
  assert (ThreadLocalDatabases tid σ' = ThreadLocalDatabases tid σ) as Heq.
  { rewrite (run_scope_thread_stack ops σ σ' tid Hrun).
    destruct (stack_after_block (thread_history tid ops)
                (ThreadLocalDatabases tid σ) [] Hpaired) as (cur' & Hstack & Hlen).
    rewrite app_nil_r in Hstack. rewrite Hstack.
    simpl in Hlen. assert (length cur' = 0) as Hnil by lia.
    destruct cur'; [apply app_nil_r | discriminate]. }
  split; [exact Heq|]. rewrite !Current_last, Heq. reflexivity.
Qed.

Lemma run_scope_Undefined_unpaired ops : forall σ,
  run_scope ops σ = Undefined ->
  exists tid,
    paired_from (length (ThreadLocalDatabases tid σ)) (thread_history tid ops) = false.
Proof.
  induction ops as [|[t op] ops IH]; intros σ Hrun; simpl in Hrun.
  - discriminate.
  - destruct op as [db|].
    + unfold EnterWithScope in Hrun. destruct (IH _ Hrun) as [tid Htid].
      exists tid. rewrite thread_history_cons. simpl. unfold ThreadLocalDatabases in *.
      destruct (decide (t = tid)) as [->|Hne]; simpl.
      * rewrite lookup_total_insert_eq, length_app, Nat.add_1_r in Htid. exact Htid.
      * rewrite lookup_total_insert_ne in Htid by assumption. exact Htid.
    + destruct (ThreadLocalDatabases t σ) as [|d0 tls0] eqn:Htls.
      * exists t. rewrite thread_history_cons, Htls. simpl.
        destruct (decide (t = t)); [reflexivity | congruence].
      * destruct (exists_last (l := d0 :: tls0)) as (tls & top & Hlast); [discriminate|].
        rewrite Hlast in Htls.
        rewrite (ExitWithScope_nonempty t σ tls top Htls) in Hrun.
        destruct (IH _ Hrun) as [tid Htid].
        exists tid. rewrite thread_history_cons. simpl. unfold ThreadLocalDatabases in *.
        destruct (decide (t = tid)) as [->|Hne]; simpl.
        -- rewrite Htls, length_app, Nat.add_1_r.
           rewrite lookup_total_insert_eq in Htid. exact Htid.
        -- rewrite lookup_total_insert_ne in Htid by assumption. exact Htid.
Qed.

(** A run from the initial state has no defined behaviour exactly when some
    thread exits a scope that it has not itself entered: entries made by
    other threads do not count.  A run never ends in an error. *)
Theorem run_scope_undefined_iff_unpaired ops :
  (run_scope ops (∅ : gmap thread_id (list Database)) = Undefined
   <-> exists tid, paired (thread_history tid ops) = false)
  /\ (forall e, run_scope ops (∅ : gmap thread_id (list Database)) <> Throw e)
  /\ (forall msg, run_scope ops (∅ : gmap thread_id (list Database)) <> Fatal msg).
Proof.
  split; [split|split].
  - intros Hrun. destruct (run_scope_Undefined_unpaired ops ∅ Hrun) as [tid Htid].
    exists tid. unfold ThreadLocalDatabases in Htid.
    rewrite lookup_total_empty in Htid. exact Htid.
  - intros [tid Htid].
    destruct (run_scope_Ok_or_Undefined ops ∅) as [Hok | Hundef]; [|exact Hundef].
    pose proof (proj1 (run_scope_paired ops ∅) Hok tid) as Hp.
    unfold ThreadLocalDatabases in Hp. rewrite lookup_total_empty in Hp.
    unfold paired in Htid. simpl in Hp. congruence.
  - intros e H. destruct (run_scope_Ok_or_Undefined ops ∅) as [[σ' Hok] | Hundef];
      congruence.
  - intros msg H. destruct (run_scope_Ok_or_Undefined ops ∅) as [[σ' Hok] | Hundef];
      congruence.
Qed.

End ScopeExtras.

(** Thread 0 runs the same two entries in both runs; threads 1 and 2 differ. *)
Lemma scope_thread_isolation_witness :
  ThreadLocalDatabases 0
      (<[0 := [1; 2]]> (<[1 := [5]]> (<[0 := [1]]> (∅ : gmap thread_id (list nat)))))
    = ThreadLocalDatabases 0
        (<[2 := []]> (<[2 := [9]]> (<[0 := [1; 2]]> (<[0 := [1]]> ∅))))
  /\ Current 0
      (<[0 := [1; 2]]> (<[1 := [5]]> (<[0 := [1]]> (∅ : gmap thread_id (list nat)))))
    = Current 0 (<[2 := []]> (<[2 := [9]]> (<[0 := [1; 2]]> (<[0 := [1]]> ∅)))).
Proof.
  apply (scope_thread_isolation
           [(0, Enter 1); (1, Enter 5); (0, Enter 2)]
           [(0, Enter 1); (0, Enter 2); (2, Enter 9); (2, Exit)]
           (∅ : gmap thread_id (list nat)) ∅).
  - vm_compute. reflexivity.
  - vm_compute. reflexivity.
  - reflexivity.
  - reflexivity.
Defined.

(** Thread 0 starts inside a scope on database 7 and runs a nested block. *)
Lemma scoped_block_restores_witness :
  ThreadLocalDatabases 0
      (<[0 := [7]]> (<[0 := [7; 1]]> (<[0 := [7; 1; 2]]> (<[1 := [5]]>
         (<[0 := [7; 1]]> (<[0 := [7]]> (∅ : gmap thread_id (list nat))))))))
    = ThreadLocalDatabases 0 (<[0 := [7]]> (∅ : gmap thread_id (list nat)))
  /\ Current 0
      (<[0 := [7]]> (<[0 := [7; 1]]> (<[0 := [7; 1; 2]]> (<[1 := [5]]>
         (<[0 := [7; 1]]> (<[0 := [7]]> (∅ : gmap thread_id (list nat))))))))
    = Current 0 (<[0 := [7]]> (∅ : gmap thread_id (list nat))).
Proof.
  apply (scoped_block_restores
           [(0, Enter 1); (1, Enter 5); (0, Enter 2); (0, Exit); (0, Exit)]
           (<[0 := [7]]> (∅ : gmap thread_id (list nat)))).
  - vm_compute. reflexivity.
  - reflexivity.
  - reflexivity.
Defined.

(** Thread 1 exits a scope that only thread 0 has entered. *)
Lemma run_scope_undefined_iff_unpaired_witness :
  run_scope [(0, Enter 1); (1, Exit)] (∅ : gmap thread_id (list nat)) = Undefined.
Proof.
  apply (proj2 (proj1 (run_scope_undefined_iff_unpaired
                         (Database := nat) [(0, Enter 1); (1, Exit)]))).
  exists 1. reflexivity.
Defined.

(** * Failing replays *)

Section ReplayFailures.
Context `{C : Collaborators} {E : Exporters} {St : Type} {this : DatabaseNode St}.

(** A record that is found but whose trace no longer applies is an error,
    not a miss: the error of the replay leaves [QuerySchedule] and
    [QueryIRModule] uncaught, after the three virtual calls of the lookup,
    and [AsMeasureCandidate] fails with the same error. *)
Theorem QuerySchedule_replay_failure (m : IRModule) (target : Target)
    (w w' : world St) (record : TuningRecord) (e : Error) :
  QueryTuningRecord m target w = (Ok (Some record), w') ->
  ApplyToSchedule (trace record)
    (Schedule_Traced (mod_ (workload record)) (-1) 0 kDetail) false = Throw e ->
  QuerySchedule m target w = (Throw e, w')
  /\ QueryIRModule m target w = (Throw e, w')
  /\ TuningRecord_AsMeasureCandidate record = Throw e.
Proof.
  intros Hrecord Hreplay.
  assert (QuerySchedule m target w = (Throw e, w')) as Hquery.
  { unfold QuerySchedule, mbind, M_bind, bind_M. rewrite Hrecord.
    unfold lift_M. rewrite Hreplay. reflexivity. }
  split; [exact Hquery|]. split.
  - unfold QueryIRModule, mbind, M_bind, bind_M. rewrite Hquery. reflexivity.
  - unfold TuningRecord_AsMeasureCandidate. rewrite Hreplay. reflexivity.
Qed.

(** The trace is decoded by replaying it on a fresh schedule of the
    workload's program.  When the other fields are absent, an error of that
    replay, or a schedule that comes back without a trace, ends the decode
    in the fatal parse failure carrying that error. *)
Theorem TuningRecord_FromJSON_bad_trace (json_trace : ObjectRef) (wl : Workload) :
  (forall e,
      ApplyJSONToSchedule json_trace (Schedule_Traced (mod_ wl) (-1) 0 kNone) = Throw e ->
      TuningRecord_FromJSON (ObjArray [json_trace; ObjNull; ObjNull; ObjNull]) wl =
        Fatal (parse_failure (ObjArray [json_trace; ObjNull; ObjNull; ObjNull]) e))
  /\ (forall sch,
      ApplyJSONToSchedule json_trace (Schedule_Traced (mod_ wl) (-1) 0 kNone) = Ok sch ->
      Schedule_trace sch = None ->
      TuningRecord_FromJSON (ObjArray [json_trace; ObjNull; ObjNull; ObjNull]) wl =
        Fatal (parse_failure (ObjArray [json_trace; ObjNull; ObjNull; ObjNull])
                 (CheckFailed "data_ != nullptr" ""))).
Proof.
  split.
  - intros e Hreplay. unfold TuningRecord_FromJSON, TuningRecord_FromJSON_try, at_.
    simpl. rewrite Hreplay. reflexivity.
  - intros sch Hreplay Hnone. unfold TuningRecord_FromJSON, TuningRecord_FromJSON_try, at_.
    simpl. rewrite Hreplay. simpl. rewrite Hnone. reflexivity.
Qed.

End ReplayFailures.

Lemma QuerySchedule_replay_failure_witness :
  QuerySchedule (C := SampleExport.strict_collaborators) (this := Sample.memory_db)
      Sample.prog_BB "llvm" (mkWorld SampleExport.stale_record []) =
    (Throw SampleExport.unknown_step,
     mkWorld SampleExport.stale_record
       [CallHasWorkload Sample.prog_BB; CallCommitWorkload Sample.prog_BB;
        CallGetTopK (Workload_from_mod Sample.prog_Aa) 1])
  /\ QueryIRModule (C := SampleExport.strict_collaborators) (this := Sample.memory_db)
      Sample.prog_BB "llvm" (mkWorld SampleExport.stale_record []) =
    (Throw SampleExport.unknown_step,
     mkWorld SampleExport.stale_record
       [CallHasWorkload Sample.prog_BB; CallCommitWorkload Sample.prog_BB;
        CallGetTopK (Workload_from_mod Sample.prog_Aa) 1])
  /\ TuningRecord_AsMeasureCandidate (C := SampleExport.strict_collaborators)
      SampleExport.record_stale = Throw SampleExport.unknown_step.
Proof.
  apply (QuerySchedule_replay_failure (C := SampleExport.strict_collaborators)
           (E := SampleExport.exporters) (this := Sample.memory_db)
           Sample.prog_BB "llvm" (mkWorld SampleExport.stale_record []) _
           SampleExport.record_stale SampleExport.unknown_step).
  - vm_compute. reflexivity.
  - vm_compute. reflexivity.
Defined.

Lemma TuningRecord_FromJSON_bad_trace_witness :
  TuningRecord_FromJSON (C := SampleExport.strict_collaborators)
    (ObjArray [ObjArray [ObjString "tensorize"]; ObjNull; ObjNull; ObjNull])
    (Workload_from_mod Sample.prog_f) =
    Fatal (parse_failure (H := SampleExport.strict_collaborators)
             (ObjArray [ObjArray [ObjString "tensorize"]; ObjNull; ObjNull; ObjNull])
             SampleExport.unknown_step).
Proof.
  apply (proj1 (TuningRecord_FromJSON_bad_trace (C := SampleExport.strict_collaborators)
                  (ObjArray [ObjString "tensorize"]) (Workload_from_mod Sample.prog_f))).
  vm_compute. reflexivity.
Defined.
